(** * FinceptTerminal scripts: the Treasury FiscalData client and the CKAN test harness

    A shallow embedding of

    - [us_treasury_fiscaldata_api.py]: the request executor [_make_request],
      the endpoint registry, the catalogue / category / search accessors, the
      four date-ranged series accessors and [test_endpoints];
    - [test_universal_ckan_api.py]: [test_function], the per-group test
      functions, [test_integrated_workflow], [run_all_tests] and [main].

    Python text is modelled by [string], one [ascii] per code point, so the
    development covers text whose code points are below 256.  Python objects
    that travel through the envelopes (decoded JSON) are values of [pyval].
    The remote services are oracles: the functions that talk to them run in a
    small monad that threads the list of calls made so far and carries Python
    exceptions. *)

From Stdlib Require Import String Ascii List ZArith NArith Bool Arith Lia.
From Stdlib Require Import Floats.
From Stdlib Require Import Sorting.Sorted Sorting.Permutation.
Import ListNotations.
Set Warnings "-register-all".
Local Open Scope string_scope.
Local Open Scope list_scope.

(** ** Python text *)

Module PyStr.

(** [str.lower] on one code point below 256: A-Z and the Latin-1 capitals
    (U+00C0..U+00DE except the multiplication sign U+00D7) move up by 32. *)
Definition lower_char (c : ascii) : ascii :=
  let n := N_of_ascii c in
  if ((65 <=? n) && (n <=? 90))%N then ascii_of_N (n + 32)
  else if ((192 <=? n) && (n <=? 222) && negb (n =? 215))%N then ascii_of_N (n + 32)
  else c.

Fixpoint lower (s : string) : string :=
  match s with
  | EmptyString => EmptyString
  | String c s' => String (lower_char c) (lower s')
  end.

(** The code points below 256 that [str.split()] treats as white space. *)
Definition is_space (c : ascii) : bool :=
  let n := N_of_ascii c in
  (((9 <=? n) && (n <=? 13)) || ((28 <=? n) && (n <=? 32)) || (n =? 133) || (n =? 160))%N.

(** [s.startswith(p)] *)
Fixpoint starts_with (p s : string) : bool :=
  match p, s with
  | EmptyString, _ => true
  | String a p', String b s' => Ascii.eqb a b && starts_with p' s'
  | String _ _, EmptyString => false
  end.

(** [sub in s] for two texts. *)
Fixpoint contains (sub s : string) : bool :=
  starts_with sub s ||
  match s with
  | EmptyString => false
  | String _ s' => contains sub s'
  end.

(** [s.split()]: the maximal runs of non-white-space characters.  [cur] is
    the run being read, most recent character first. *)
Definition rev_string (l : list ascii) : string :=
  string_of_list_ascii (rev l).

Fixpoint split_ws_aux (cur : list ascii) (s : string) : list string :=
  match s with
  | EmptyString => match cur with [] => [] | _ => [rev_string cur] end
  | String c s' =>
      if is_space c
      then match cur with
           | [] => split_ws_aux [] s'
           | _ => rev_string cur :: split_ws_aux [] s'
           end
      else split_ws_aux (c :: cur) s'
  end.

Definition split_ws (s : string) : list string := split_ws_aux [] s.

(** [s.split(sep)] for a one-character separator: always at least one piece. *)
Fixpoint split_on_aux (sep : ascii) (cur : list ascii) (s : string) : list string :=
  match s with
  | EmptyString => [rev_string cur]
  | String c s' =>
      if Ascii.eqb c sep then rev_string cur :: split_on_aux sep [] s'
      else split_on_aux sep (c :: cur) s'
  end.

Definition split_on (sep : ascii) (s : string) : list string :=
  split_on_aux sep [] s.

(** [s.replace(old, new)] for a non-empty [old]: leftmost non-overlapping
    occurrences.  [skip] counts the characters of a match still to drop.
    (Every call site passes a non-empty [old].) *)
Fixpoint replace_aux (old new : string) (skip : nat) (s : string) : string :=
  match s with
  | EmptyString => EmptyString
  | String c s' =>
      match skip with
      | S k => replace_aux old new k s'
      | O =>
          if starts_with old s
          then new ++ replace_aux old new (String.length old - 1) s'
          else String c (replace_aux old new 0 s')
      end
  end.

Definition replace (old new s : string) : string :=
  match old with
  | EmptyString => s
  | _ => replace_aux old new 0 s
  end.

(** [str.title] on ASCII text: a letter that follows a letter is lowered,
    any other letter is raised.  It is only ever applied to text cut out of
    the registry, which is ASCII. *)
Definition is_letter (c : ascii) : bool :=
  let n := N_of_ascii c in
  (((65 <=? n) && (n <=? 90)) || ((97 <=? n) && (n <=? 122)))%N.

Definition upper_char (c : ascii) : ascii :=
  let n := N_of_ascii c in
  if ((97 <=? n) && (n <=? 122))%N then ascii_of_N (n - 32) else c.

Fixpoint title_aux (prev_cased : bool) (s : string) : string :=
  match s with
  | EmptyString => EmptyString
  | String c s' =>
      String (if prev_cased then lower_char c else upper_char c)
             (title_aux (is_letter c) s')
  end.

Definition title (s : string) : string := title_aux false s.

(** Truthiness of a text: empty is false. *)
Definition nonempty (s : string) : bool :=
  match s with EmptyString => false | _ => true end.

End PyStr.

(** ** Python values, exceptions and the operations the scripts use *)

Module Py.

(** Decoded JSON and the other objects that travel in an envelope.  A
    dictionary is a list of bindings in insertion order; its keys are texts. *)
Inductive pyval : Type :=
| PNone
| PBool (b : bool)
| PInt (z : Z)
| PFloat (f : float)
| PStr (s : string)
| PList (l : list pyval)
| PDict (kvs : list (string * pyval)).

Definition dict := list (string * pyval).

(** The exceptions the scripts tell apart, and every other [Exception] as
    its class name and its [str(e)]. *)
Inductive exn : Type :=
| HTTPError (status_code : Z) (reason : string)
| Timeout
| ConnectionError
| JSONDecodeError
| PyError (cls : string) (msg : string).

Inductive res (A : Type) : Type :=
| Ok (a : A)
| Raise (e : exn).
Arguments Ok {A} a.
Arguments Raise {A} e.

Fixpoint dict_get (k : string) (d : dict) : option pyval :=
  match d with
  | [] => None
  | (k', v) :: d' => if String.eqb k k' then Some v else dict_get k d'
  end.

Definition dict_has (k : string) (d : dict) : bool :=
  match dict_get k d with Some _ => true | None => false end.

(** [d[k] = v]: an existing key keeps its place, a new one goes last. *)
Fixpoint dict_set (k : string) (v : pyval) (d : dict) : dict :=
  match d with
  | [] => [(k, v)]
  | (k', v') :: d' =>
      if String.eqb k k' then (k, v) :: d' else (k', v') :: dict_set k v d'
  end.

(** [bool(v)] *)
Definition truthy (v : pyval) : bool :=
  match v with
  | PNone => false
  | PBool b => b
  | PInt z => negb (Z.eqb z 0)
  | PFloat f => negb (PrimFloat.eqb f 0%float)
  | PStr s => PyStr.nonempty s
  | PList l => match l with [] => false | _ => true end
  | PDict d => match d with [] => false | _ => true end
  end.

Definition type_name (v : pyval) : string :=
  match v with
  | PNone => "NoneType"
  | PBool _ => "bool"
  | PInt _ => "int"
  | PFloat _ => "float"
  | PStr _ => "str"
  | PList _ => "list"
  | PDict _ => "dict"
  end.

Definition is_dict (v : pyval) : bool :=
  match v with PDict _ => true | _ => false end.

Definition is_str (k : string) (v : pyval) : bool :=
  match v with PStr s => String.eqb s k | _ => false end.

(** The message texts below follow CPython's wording; no theorem depends
    on them. *)

(** [len(v)] *)
Definition py_len (v : pyval) : res nat :=
  match v with
  | PStr s => Ok (String.length s)
  | PList l => Ok (List.length l)
  | PDict d => Ok (List.length d)
  | _ => Raise (PyError "TypeError"
                  ("object of type '" ++ type_name v ++ "' has no len()"))
  end.

(** [k in v] for a text [k]: key of a dictionary, element of a list,
    substring of a text. *)
Definition py_in (k : string) (v : pyval) : res bool :=
  match v with
  | PDict d => Ok (dict_has k d)
  | PList l => Ok (existsb (is_str k) l)
  | PStr s => Ok (PyStr.contains k s)
  | _ => Raise (PyError "TypeError"
                  ("argument of type '" ++ type_name v ++ "' is not iterable"))
  end.

(** [v[k]] for a text [k]. *)
Definition py_getitem (v : pyval) (k : string) : res pyval :=
  match v with
  | PDict d =>
      match dict_get k d with
      | Some x => Ok x
      | None => Raise (PyError "KeyError" ("'" ++ k ++ "'"))
      end
  | PList _ => Raise (PyError "TypeError" "list indices must be integers or slices, not str")
  | PStr _ => Raise (PyError "TypeError" "string indices must be integers, not 'str'")
  | _ => Raise (PyError "TypeError"
                  ("'" ++ type_name v ++ "' object is not subscriptable"))
  end.

(** [v[0]] *)
Definition py_first (v : pyval) : res pyval :=
  match v with
  | PList (x :: _) => Ok x
  | PList [] => Raise (PyError "IndexError" "list index out of range")
  | PStr (String c _) => Ok (PStr (String c EmptyString))
  | PStr EmptyString => Raise (PyError "IndexError" "string index out of range")
  | PDict _ => Raise (PyError "KeyError" "0")
  | _ => Raise (PyError "TypeError"
                  ("'" ++ type_name v ++ "' object is not subscriptable"))
  end.

(** [v.get(k, default)]: only a dictionary has the method. *)
Definition py_get (v : pyval) (k : string) (default : pyval) : res pyval :=
  match v with
  | PDict d =>
      match dict_get k d with
      | Some x => Ok x
      | None => Ok default
      end
  | _ => Raise (PyError "AttributeError"
                  ("'" ++ type_name v ++ "' object has no attribute 'get'"))
  end.

(** [str(e)] of a caught exception.  Only the catch-all clauses use it, and
    only an exception outside the four named classes reaches one; for the
    named classes the text is the library's own and a label stands for it. *)
Definition exn_str (e : exn) : string :=
  match e with
  | HTTPError _ reason => reason
  | Timeout => "Timeout"
  | ConnectionError => "ConnectionError"
  | JSONDecodeError => "JSONDecodeError"
  | PyError _ msg => msg
  end.

(** Decimal text of an integer, as [str(int)] prints it. *)
Fixpoint digits (fuel : nat) (n : N) (acc : string) : string :=
  match fuel with
  | O => acc
  | S fuel' =>
      let d := ascii_of_N (48 + N.modulo n 10) in
      let q := N.div n 10 in
      if N.eqb q 0 then String d acc else digits fuel' q (String d acc)
  end.

Definition str_of_N (n : N) : string :=
  digits (S (N.to_nat (N.log2 n))) n "".

Definition str_of_Z (z : Z) : string :=
  match z with
  | Z0 => "0"
  | Zpos p => str_of_N (Npos p)
  | Zneg p => "-" ++ str_of_N (Npos p)
  end.

(** [a / b] on two integers, as a binary64 float.  The integers here are
    list lengths, far below 2^53, where the quotient of the two converted
    operands is the correctly rounded quotient Python computes. *)
Definition float_of_nat (n : nat) : float :=
  PrimFloat.of_uint63 (Uint63.of_Z (Z.of_nat n)).

Definition py_truediv (a b : nat) : res float :=
  match b with
  | O => Raise (PyError "ZeroDivisionError" "division by zero")
  | _ => Ok (PrimFloat.div (float_of_nat a) (float_of_nat b))
  end.

(** The number of tenths nearest to [m * 2^e], ties to the even one: the
    rounding [format(x, ".1f")] performs on the exact value of a float. *)
Definition tenths (m : positive) (e : Z) : Z :=
  let n := (Zpos m * 10)%Z in
  if (0 <=? e)%Z then (n * 2 ^ e)%Z
  else
    let d := (2 ^ (- e))%Z in
    let q := (n / d)%Z in
    let r := (n mod d)%Z in
    if (2 * r <? d)%Z then q
    else if (d <? 2 * r)%Z then (q + 1)%Z
    else if Z.even q then q else (q + 1)%Z.

(** [f"{x:.1f}"] *)
Definition format_1f (x : float) : string :=
  match Prim2SF x with
  | S754_zero s => if s then "-0.0" else "0.0"
  | S754_infinity s => if s then "-inf" else "inf"
  | S754_nan => "nan"
  | S754_finite s m e =>
      let t := tenths m e in
      (if s then "-" else "") ++ str_of_Z (t / 10) ++ "." ++ str_of_Z (t mod 10)
  end.

(** *** Calls to the outside world

    A computation reads and extends the list of calls made so far (oldest
    first) and ends in a value or a raised exception. *)
Definition M (E A : Type) : Type := list E -> res A * list E.

Definition ret {E A} (a : A) : M E A := fun log => (Ok a, log).

Definition bind {E A B} (m : M E A) (k : A -> M E B) : M E B :=
  fun log =>
    match m log with
    | (Ok a, log') => k a log'
    | (Raise e, log') => (Raise e, log')
    end.

Definition throw {E A} (e : exn) : M E A := fun log => (Raise e, log).

(** A pure operation that may raise. *)
Definition lift {E A} (r : res A) : M E A := fun log => (r, log).

(** [try: body  except Exception as e: handler(e)], for a body that calls
    nothing outside. *)
Definition try_pure {A} (body : res A) (handler : exn -> A) : A :=
  match body with
  | Ok a => a
  | Raise e => handler e
  end.

(** The same around a body that makes calls. *)
Definition try_except {E A} (body : M E A) (handler : exn -> M E A) : M E A :=
  fun log =>
    match body log with
    | (Ok a, log') => (Ok a, log')
    | (Raise e, log') => handler e log'
    end.

End Py.

Declare Scope py_scope.
Delimit Scope py_scope with py.
Notation "x <- m ;; k" := (Py.bind m (fun x => k))
  (at level 61, m at next level, right associativity) : py_scope.
Notation "m ;;; k" := (Py.bind m (fun _ => k))
  (at level 61, right associativity) : py_scope.

(** ** us_treasury_fiscaldata_api.py *)

Module Treasury.
Import Py.
Local Open Scope py_scope.
Local Open Scope string_scope.

Definition BASE_URL : string :=
  "https://api.fiscaldata.treasury.gov/services/api/fiscal_service".
Definition TIMEOUT : Z := 30.
Definition DEFAULT_PAGE_SIZE : Z := 100.

(** The dictionary every accessor returns: its three keys. *)
Record envelope : Type := Envelope {
  data : pyval;
  metadata : dict;
  error : option string
}.

(** One [requests.get(url, params=params, timeout=timeout)]. *)
Record http_get : Type := HttpGet {
  get_url : string;
  get_params : dict;
  get_timeout : Z
}.

(** What the call does: it raises ([requests.exceptions.Timeout],
    [ConnectionError] or anything else), or it returns a response with a
    status line and a body; [None] is a body that [response.json()] cannot
    decode. *)
Inductive http_outcome : Type :=
| GetRaises (e : exn)
| GetReturns (status_code : Z) (reason : string) (body : option pyval).

Definition _get_available_datasets : list string :=
  [ "v2/accounting/od/debt_to_penny";
    "v2/accounting/od/avg_interest_rates";
    "v2/accounting/od/schedules_fed_debt";
    "v2/accounting/od/stmt_debt";
    "v2/accounting/od/stmt_tsy_gov_sec_hldgs";
    "v2/accounting/od/mts";
    "v2/accounting/od/receipts";
    "v2/accounting/od/outlays";
    "v2/accounting/od/deficit";
    "v2/accounting/od/supplemental_monthly_statement";
    "v2/accounting/dts/gs_cfs";
    "v2/accounting/dts/ds_gf";
    "v2/accounting/dts/debt_to_the_penny";
    "v2/accounting/od/avg_maturity_secs";
    "v2/accounting/od/securities";
    "v2/debt/msd/msd_summary";
    "v2/debt/msd/msd_detail";
    "v2/debt/ie/ie_bpd";
    "v2/revenue/rc/collections";
    "v2/revenue/rc/quarterly_collections";
    "v2/revenue/rc/annual_collections";
    "v2/revenue/rc/receipts";
    "v2/revenue/rc/expenditures";
    "v2/expenditures/budget/budget_function";
    "v2/expenditures/budget/budget_subfunction";
    "v2/expenditures/budget/budget_account";
    "v2/expenditures/budget/budget_object_class";
    "v2/expenditures/agency/agency" ].

Definition SOURCE : pyval := PStr "us_treasury_fiscaldata".

(** Truthiness of an optional text argument. *)
Definition given (o : option string) : bool :=
  match o with
  | Some s => PyStr.nonempty s
  | None => false
  end.

Definition text_of (o : option string) : string :=
  match o with Some s => s | None => "None" end.

(** [dataset.split('/')[1] if len(dataset.split('/')) > 2 else "unknown"] *)
Definition category_of (dataset : string) : string :=
  let parts := PyStr.split_on "/" dataset in
  if (2 <? List.length parts)%nat then nth 1 parts "" else "unknown".

Section World.

(** [datetime.now().isoformat()]: only [last_updated] carries it, so one
    reading stands for every call. *)
Variable now : string.

(** [str(v)] for a value that is not a text (numbers, lists, ...). *)
Variable py_repr : pyval -> string.

(** The remote service: what the next GET does, given the GETs before it. *)
Variable http : list http_get -> http_get -> http_outcome.

Definition py_str (v : pyval) : string :=
  match v with
  | PStr s => s
  | _ => py_repr v
  end.

Definition T := M http_get.

(** [requests.get], [response.raise_for_status()] and [response.json()]. *)
Definition requests_get (url : string) (params : dict) (timeout : Z)
  : T (Z * string * option pyval) :=
  fun log =>
    let g := HttpGet url params timeout in
    match http log g with
    | GetRaises e => (Raise e, (log ++ [g])%list)
    | GetReturns st rs body => (Ok (st, rs, body), (log ++ [g])%list)
    end.

Definition raise_for_status (response : Z * string * option pyval) : T unit :=
  let '(st, rs, _) := response in
  if ((400 <=? st) && (st <? 600))%Z then throw (HTTPError st rs) else ret tt.

Definition response_json (response : Z * string * option pyval) : T pyval :=
  let '(_, _, body) := response in
  match body with
  | Some v => ret v
  | None => throw JSONDecodeError
  end.

(** The metadata literal that the API-error branch and the five handlers of
    [_make_request] each write out. *)
Definition request_error_metadata (endpoint : string) (params : dict) : dict :=
  [ ("source", SOURCE);
    ("last_updated", PStr now);
    ("action", PStr endpoint);
    ("endpoint", PStr endpoint);
    ("params", PDict params) ].

Definition request_error (endpoint : string) (params : dict) (msg : string)
  : envelope :=
  Envelope (PList []) (request_error_metadata endpoint params) (Some msg).

(** The parameters as the first lines of the [try] leave them. *)
Definition prepare_params (params : option dict) : dict :=
  let params := match params with Some p => p | None => [] end in
  let params :=
    if negb (dict_has "page[size]" params)
    then dict_set "page[size]" (PInt DEFAULT_PAGE_SIZE) params
    else params in
  dict_set "format" (PStr "json") params.

(** The body of the [try] from the GET on. *)
Definition _make_request_try (endpoint : string) (params : dict) : T envelope :=
  let url := BASE_URL ++ "/" ++ endpoint in
  response <- requests_get url params TIMEOUT ;;
  raise_for_status response ;;;
  data <- response_json response ;;
  has_error <- lift (py_in "error" data) ;;
  if (has_error : bool) then
    e <- lift (py_getitem data "error") ;;
    ret (request_error endpoint params ("API Error: " ++ py_str e))
  else
    records <- lift (py_get data "data" (PList [])) ;;
    count <- lift (py_len records) ;;
    meta <- lift (py_get data "meta" (PDict [])) ;;
    total_count <- lift (py_get meta "total-count" (PInt 0)) ;;
    meta <- lift (py_get data "meta" (PDict [])) ;;
    page_number <- lift (py_get meta "page-number" (PInt 1)) ;;
    meta <- lift (py_get data "meta" (PDict [])) ;;
    page_size <- lift (py_get meta "page-size" (PInt DEFAULT_PAGE_SIZE)) ;;
    meta <- lift (py_get data "meta" (PDict [])) ;;
    total_pages <- lift (py_get meta "total-pages" (PInt 1)) ;;
    let metadata :=
      [ ("source", SOURCE);
        ("last_updated", PStr now);
        ("action", PStr endpoint);
        ("endpoint", PStr endpoint);
        ("params", PDict params);
        ("count", PInt (Z.of_nat count));
        ("total_count", total_count);
        ("page_info", PDict [ ("page_number", page_number);
                             ("page_size", page_size);
                             ("total_pages", total_pages) ]) ] in
    records <- lift (py_get data "data" (PList [])) ;;
    ret (Envelope records metadata None).

Definition _make_request_handler (endpoint : string) (params : dict) (e : exn)
  : T envelope :=
  match e with
  | HTTPError st rs =>
      ret (request_error endpoint params
             ("HTTP Error: " ++ str_of_Z st ++ " - " ++ rs))
  | Timeout =>
      ret (request_error endpoint params
             "Request timeout. API is taking too long to respond.")
  | ConnectionError =>
      ret (request_error endpoint params
             "Connection error. Unable to connect to API.")
  | JSONDecodeError =>
      ret (request_error endpoint params "Invalid JSON response from API")
  | PyError _ _ =>
      ret (request_error endpoint params ("Unexpected error: " ++ exn_str e))
  end.

Definition _make_request (endpoint : string) (params : option dict) : T envelope :=
  let params := prepare_params params in
  try_except (_make_request_try endpoint params)
             (_make_request_handler endpoint params).

(** The catalogue entry of [get_catalogue] and [search_datasets]. *)
Definition dataset_info (dataset : string) : dict :=
  [ ("endpoint", PStr dataset);
    ("category", PStr (category_of dataset));
    ("name", PStr (PyStr.title
                     (PyStr.replace "_" " " (PyStr.replace "v2/" "" dataset))));
    ("path", PStr dataset) ].

Definition get_catalogue : envelope :=
  try_pure
    (let datasets := _get_available_datasets in
     let dataset_info := map (fun d => PDict (dataset_info d)) datasets in
     let metadata :=
       [ ("source", SOURCE);
         ("last_updated", PStr now);
         ("action", PStr "get_catalogue");
         ("count", PInt (Z.of_nat (List.length dataset_info)));
         ("description", PStr "Available U.S. Treasury FiscalData datasets") ] in
     Ok (Envelope (PList dataset_info) metadata None))
    (fun e =>
       Envelope (PList [])
         [ ("source", SOURCE);
           ("last_updated", PStr now);
           ("action", PStr "get_catalogue") ]
         (Some ("Error generating catalogue: " ++ exn_str e))).

Definition category_info (category dataset : string) : dict :=
  [ ("endpoint", PStr dataset);
    ("category", PStr category);
    ("name", PStr (PyStr.title
                     (PyStr.replace "_" " "
                        (PyStr.replace ("v2/" ++ category ++ "/") "" dataset))));
    ("path", PStr dataset) ].

Definition get_datasets_by_category (category : string) : envelope :=
  try_pure
    (let all_datasets := _get_available_datasets in
     let filtered_datasets :=
       filter (fun d => PyStr.contains category d) all_datasets in
     match filtered_datasets with
     | [] =>
         Ok (Envelope (PList [])
               [ ("source", SOURCE);
                 ("last_updated", PStr now);
                 ("action", PStr "get_datasets_by_category");
                 ("category", PStr category) ]
               (Some ("No datasets found for category: " ++ category)))
     | _ =>
         let dataset_info :=
           map (fun d => PDict (category_info category d)) filtered_datasets in
         Ok (Envelope (PList dataset_info)
               [ ("source", SOURCE);
                 ("last_updated", PStr now);
                 ("action", PStr "get_datasets_by_category");
                 ("category", PStr category);
                 ("count", PInt (Z.of_nat (List.length dataset_info))) ]
               None)
     end)
    (fun e =>
       Envelope (PList [])
         [ ("source", SOURCE);
           ("last_updated", PStr now);
           ("action", PStr "get_datasets_by_category");
           ("category", PStr category) ]
         (Some ("Error filtering datasets by category: " ++ exn_str e))).

(** [get_dataset_data(endpoint, fields, filter, sort, page_size, page_number)] *)
Definition dataset_params (fields filter_arg sort : option string)
    (page_size page_number : Z) : dict :=
  let params :=
    [ ("page[size]", PInt page_size); ("page[number]", PInt page_number) ] in
  let params :=
    if given fields then dict_set "fields" (PStr (text_of fields)) params
    else params in
  let params :=
    if given filter_arg then dict_set "filter" (PStr (text_of filter_arg)) params
    else params in
  if given sort then dict_set "sort" (PStr (text_of sort)) params
  else params.

Definition get_dataset_data (endpoint : string)
    (fields filter_arg sort : option string) (page_size page_number : Z)
  : T envelope :=
  try_except
    (let params := dataset_params fields filter_arg sort page_size page_number in
     _make_request endpoint (Some params))
    (fun e =>
       ret (Envelope (PList [])
              [ ("source", SOURCE);
                ("last_updated", PStr now);
                ("action", PStr "get_dataset_data");
                ("endpoint", PStr endpoint) ]
              (Some ("Error fetching dataset data: " ++ exn_str e)))).

Definition get_dataset_summary (endpoint : string) : T envelope :=
  try_except
    (get_dataset_data endpoint None None None 5 1)
    (fun e =>
       ret (Envelope (PList [])
              [ ("source", SOURCE);
                ("last_updated", PStr now);
                ("action", PStr "get_dataset_summary");
                ("endpoint", PStr endpoint) ]
              (Some ("Error fetching dataset summary: " ++ exn_str e)))).

(** The block that opens each of the four series accessors:
    [filter_expr = ""], then the [if start_date and end_date / elif
    start_date / elif end_date] chain. *)
Definition filter_expr (start_date end_date : option string) : string :=
  if given start_date && given end_date then
    "record_date:gte:" ++ text_of start_date
      ++ ",record_date:lte:" ++ text_of end_date
  else if given start_date then "record_date:gte:" ++ text_of start_date
  else if given end_date then "record_date:lte:" ++ text_of end_date
  else "".

(** The [except] clause the four series accessors share but for two texts. *)
Definition series_error (action what : string) (e : exn) : T envelope :=
  ret (Envelope (PList [])
         [ ("source", SOURCE);
           ("last_updated", PStr now);
           ("action", PStr action) ]
         (Some ("Error fetching " ++ what ++ ": " ++ exn_str e))).

Definition get_debt_to_penny (start_date end_date : option string) : T envelope :=
  try_except
    (let filter_expr := filter_expr start_date end_date in
     let fields := "record_date,tot_pub_debt_out_amt" in
     get_dataset_data "v2/accounting/od/debt_to_penny"
       (Some fields) (Some filter_expr) (Some "-record_date") 500 1)
    (series_error "get_debt_to_penny" "debt data").

Definition get_treasury_yield_rates (start_date end_date : option string)
  : T envelope :=
  try_except
    (let filter_expr := filter_expr start_date end_date in
     get_dataset_data "v2/accounting/od/avg_interest_rates"
       None (Some filter_expr) (Some "-record_date") 500 1)
    (series_error "get_treasury_yield_rates" "interest rates").

Definition get_monthly_treasury_statement (start_date end_date : option string)
  : T envelope :=
  try_except
    (let filter_expr := filter_expr start_date end_date in
     get_dataset_data "v2/revenue/rc/collections"
       None (Some filter_expr) (Some "-record_date") 500 1)
    (series_error "get_monthly_treasury_statement" "revenue collections").

Definition get_interest_expense (start_date end_date : option string)
  : T envelope :=
  try_except
    (let filter_expr := filter_expr start_date end_date in
     get_dataset_data "v2/debt/ie/ie_bpd"
       None (Some filter_expr) (Some "-record_date") 500 1)
    (series_error "get_interest_expense" "interest expense").

(** [x['match_score']] of a search entry. *)
Definition match_score (x : dict) : Z :=
  match dict_get "match_score" x with
  | Some (PInt z) => z
  | _ => 0%Z
  end.

(** [list.sort(key=..., reverse=True)]: descending, entries of equal key in
    their old order. *)
Fixpoint insert_desc {A} (key : A -> Z) (x : A) (l : list A) : list A :=
  match l with
  | [] => [x]
  | y :: l' =>
      if (key x <? key y)%Z then y :: insert_desc key x l' else x :: l
  end.

Fixpoint sort_desc {A} (key : A -> Z) (l : list A) : list A :=
  match l with
  | [] => []
  | x :: l' => insert_desc key x (sort_desc key l')
  end.

(** [sum(1 for word in query_lower.split() if word in dataset.lower())] *)
Definition count_tokens (query_lower dataset : string) : nat :=
  List.length
    (filter (fun word => PyStr.contains word (PyStr.lower dataset))
            (PyStr.split_ws query_lower)).

Definition search_info (query_lower dataset : string) : dict :=
  [ ("endpoint", PStr dataset);
    ("category", PStr (category_of dataset));
    ("name", PStr (PyStr.title
                     (PyStr.replace "_" " " (PyStr.replace "v2/" "" dataset))));
    ("path", PStr dataset);
    ("match_score", PInt (Z.of_nat (count_tokens query_lower dataset))) ].

(** The entries the loop of [search_datasets] collects, in the order of the
    registry, and the list once sorted. *)
Definition collected (query : string) : list dict :=
  let datasets := _get_available_datasets in
  let query_lower := PyStr.lower query in
  map (search_info query_lower)
      (filter (fun dataset => PyStr.contains query_lower (PyStr.lower dataset))
              datasets).

Definition matching_datasets (query : string) : list dict :=
  sort_desc match_score (collected query).

Definition search_datasets (query : string) : envelope :=
  try_pure
    (let matching_datasets := matching_datasets query in
     let metadata :=
       [ ("source", SOURCE);
         ("last_updated", PStr now);
         ("action", PStr "search_datasets");
         ("query", PStr query);
         ("count", PInt (Z.of_nat (List.length matching_datasets))) ] in
     Ok (Envelope (PList (map PDict matching_datasets)) metadata None))
    (fun e =>
       Envelope (PList [])
         [ ("source", SOURCE);
           ("last_updated", PStr now);
           ("action", PStr "search_datasets");
           ("query", PStr query) ]
         (Some ("Error searching datasets: " ++ exn_str e))).

(** One entry of [test_results]. *)
Definition error_value (e : option string) : pyval :=
  match e with Some s => PStr s | None => PNone end.

Definition test_record (name : string) (result : envelope) : T pyval :=
  data_count <- lift (py_len (data result)) ;;
  ret (PDict
         [ ("endpoint", PStr name);
           ("status", PStr (match error result with
                            | None => "success"
                            | Some _ => "error"
                            end));
           ("error", error_value (error result));
           ("data_count", PInt (Z.of_nat data_count)) ]).

Definition is_success (test : pyval) : bool :=
  match test with
  | PDict d => match dict_get "status" d with
               | Some (PStr s) => String.eqb s "success"
               | _ => false
               end
  | _ => false
  end.

Definition test_endpoints : T envelope :=
  try_except
    (t1 <- test_record "get_catalogue" get_catalogue ;;
     result <- get_debt_to_penny None None ;;
     t2 <- test_record "get_debt_to_penny" result ;;
     result <- get_treasury_yield_rates None None ;;
     t3 <- test_record "get_treasury_yield_rates" result ;;
     t4 <- test_record "search_datasets" (search_datasets "debt") ;;
     t5 <- test_record "get_datasets_by_category"
             (get_datasets_by_category "accounting") ;;
     let test_results := [t1; t2; t3; t4; t5] in
     let success_count := List.length (filter is_success test_results) in
     let total_count := List.length test_results in
     ratio <- lift (py_truediv success_count total_count) ;;
     let metadata :=
       [ ("source", SOURCE);
         ("last_updated", PStr now);
         ("action", PStr "test_endpoints");
         ("total_tests", PInt (Z.of_nat total_count));
         ("successful_tests", PInt (Z.of_nat success_count));
         ("failed_tests", PInt (Z.of_nat total_count - Z.of_nat success_count));
         ("success_rate",
          PStr (format_1f (PrimFloat.mul ratio 100%float) ++ "%")) ] in
     ret (Envelope (PList test_results) metadata None))
    (fun e =>
       ret (Envelope (PList [])
              [ ("source", SOURCE);
                ("last_updated", PStr now);
                ("action", PStr "test_endpoints") ]
              (Some ("Error during endpoint testing: " ++ exn_str e)))).

(** [main] after the result is printed: exit status 1 when
    [result.get('error')] is truthy. *)
Definition exit_code (result : envelope) : Z :=
  if given (error result) then 1%Z else 0%Z.

End World.

(** *** The vocabulary of the statements about the accessors *)

(** A Python sequence: a list or a text; a dictionary is a mapping. *)
Definition is_sequence (v : pyval) : bool :=
  match v with
  | PList _ | PStr _ => true
  | _ => false
  end.

Definition is_list (v : pyval) : bool :=
  match v with PList _ => true | _ => false end.

(** [len(v)] succeeds. *)
Definition sized (v : pyval) : Prop := exists n, py_len v = Ok n.

Definition has_key (k : string) (d : dict) : Prop := dict_has k d = true.

(** The GET that [_make_request(endpoint, params)] issues. *)
Definition request_of (endpoint : string) (params : option dict) : http_get :=
  HttpGet (BASE_URL ++ "/" ++ endpoint) (prepare_params params) TIMEOUT.

(** What holds of every envelope the accessors build: [data] is not [None],
    [metadata] names the source and the action, an error comes with an
    empty list and a non-empty message, and without an error [data] has a
    length. *)
Definition envelope_ok (env : envelope) : Prop :=
  data env <> PNone /\
  has_key "source" (metadata env) /\
  has_key "action" (metadata env) /\
  match error env with
  | Some msg => data env = PList [] /\ msg <> ""
  | None => sized (data env)
  end.

(** [metadata.count == len(data)] on success. *)
Definition count_ok (env : envelope) : Prop :=
  error env = None ->
  exists n, py_len (data env) = Ok n /\
            dict_get "count" (metadata env) = Some (PInt (Z.of_nat n)).

(** Without an error, [data] is what the decoded body of the answer to [g]
    holds under ["data"] (an empty list when it holds nothing). *)
Definition from_remote (http : list http_get -> http_get -> http_outcome)
    (log : list http_get) (g : http_get) (env : envelope) : Prop :=
  error env = None ->
  exists st rs v,
    http log g = GetReturns st rs (Some v) /\
    py_get v "data" (PList []) = Ok (data env).

(** What one run of an accessor that talks to the remote comes to: it
    returns (it does not raise), it has issued exactly the GET [g], and the
    envelope is well formed. *)
Definition runs_with (http : list http_get -> http_get -> http_outcome)
    (m : list http_get -> res envelope * list http_get)
    (log : list http_get) (g : http_get) (env : envelope) : Prop :=
  m log = (Ok env, (log ++ [g])%list) /\
  envelope_ok env /\ count_ok env /\ from_remote http log g env.

(** The parameters of the GET a series accessor issues, written out. *)
Definition series_params (fields start_date end_date : option string) : dict :=
  ([ ("page[size]", PInt 500); ("page[number]", PInt 1) ]
   ++ match fields with Some f => [("fields", PStr f)] | None => [] end
   ++ (if given start_date || given end_date
       then [("filter", PStr (filter_expr start_date end_date))] else [])
   ++ [ ("sort", PStr "-record_date"); ("format", PStr "json") ])%list.

Definition series_request (path : string) (fields start_date end_date : option string)
  : http_get :=
  HttpGet (BASE_URL ++ "/" ++ path) (series_params fields start_date end_date) 30.

(** Descending order of a key, and the entries of one key, in order. *)
Definition desc {A} (key : A -> Z) (a b : A) : Prop := (key b <= key a)%Z.

Definition with_key {A} (key : A -> Z) (k : Z) (l : list A) : list A :=
  filter (fun x => Z.eqb (key x) k) l.

(** The text under ["path"] of a catalogue entry. *)
Definition path_of (x : dict) : string :=
  match dict_get "path" x with
  | Some (PStr s) => s
  | _ => ""
  end.

(** A remote whose body holds a dictionary under ["data"]. *)
Definition mapping_body : pyval :=
  PDict [("data", PDict [("a", PInt 1)])].
Definition mapping_remote : list http_get -> http_get -> http_outcome :=
  fun _ _ => GetReturns 200 "OK" (Some mapping_body).

(** A remote that answers every GET with one record. *)
Definition one_record_remote : list http_get -> http_get -> http_outcome :=
  fun _ _ =>
    GetReturns 200 "OK"
      (Some (PDict [("data", PList [PDict [("record_date", PStr "2024-01-02")]])])).

End Treasury.

(** ** test_universal_ckan_api.py *)

Module Ckan.
Import Py.
Local Open Scope py_scope.
Local Open Scope string_scope.

Definition DEFAULT_TEST_COUNTRY : string := "us".
Definition ALL_COUNTRIES : list string :=
  ["us"; "uk"; "au"; "it"; "br"; "lv"; "si"; "uy"].

(** The functions imported from [universal_ckan_api] that the harness
    calls, with their arguments.  A name or an identifier read out of an
    earlier answer is whatever value that answer held. *)
Inductive api_call : Type :=
| list_organizations (country : string) (limit : Z)
| get_organization_details (country : string) (org_name : pyval)
| list_datasets (country : string) (limit : Z)
| search_datasets (country : string) (query : string) (limit : Z)
| get_dataset_details (country : string) (dataset_name : pyval)
| get_dataset_resources (country : string) (dataset_name : pyval)
| get_resource_details (country : string) (resource_id : pyval)
| get_supported_countries
| test_portal_connection (country : string).

(** The portal a call is addressed to. *)
Definition call_country (c : api_call) : option string :=
  match c with
  | list_organizations country _
  | get_organization_details country _
  | list_datasets country _
  | search_datasets country _ _
  | get_dataset_details country _
  | get_dataset_resources country _
  | get_resource_details country _
  | test_portal_connection country => Some country
  | get_supported_countries => None
  end.

(** The trace of a run: the calls to the wrapper and, of everything printed,
    the [print_header] lines, which mark where each group of tests starts.
    The other printed lines and the timings are not modelled. *)
Inductive event : Type :=
| Header (message : string)
| Call (c : api_call).

(** The dictionaries of per-country outcomes ([results[country] = success]):
    bindings in insertion order. *)
Definition results := list (string * bool).

Fixpoint results_set (k : string) (v : bool) (d : results) : results :=
  match d with
  | [] => [(k, v)]
  | (k', v') :: d' =>
      if String.eqb k k' then (k, v) :: d' else (k', v') :: results_set k v d'
  end.

Fixpoint results_get (k : string) (d : results) : option bool :=
  match d with
  | [] => None
  | (k', v) :: d' => if String.eqb k k' then Some v else results_get k d'
  end.

(** [sum(d.values())] and [len(d)] *)
Definition successes (d : results) : nat :=
  List.length (filter (fun kv => snd kv) d).
Definition attempts (d : results) : nat := List.length d.

(** [sum(d.values()) / len(d) * 100] *)
Definition success_rate (d : results) : res float :=
  match py_truediv (successes d) (attempts d) with
  | Ok q => Ok (PrimFloat.mul q 100%float)
  | Raise e => Raise e
  end.

(** [for x in v]: the elements of a list, the characters of a text, the keys
    of a dictionary. *)
Fixpoint chars (s : string) : list pyval :=
  match s with
  | EmptyString => []
  | String c s' => PStr (String c EmptyString) :: chars s'
  end.

Definition py_iter (v : pyval) : res (list pyval) :=
  match v with
  | PList l => Ok l
  | PStr s => Ok (chars s)
  | PDict d => Ok (map (fun kv => PStr (fst kv)) d)
  | _ => Raise (PyError "TypeError"
                  ("'" ++ type_name v ++ "' object is not iterable"))
  end.

(** The three outcomes of the final assessment, by the line printed. *)
Inductive verdict : Type :=
| AllPassed
| PartiallyWorking
| MostlyFailed.

(** What [run_all_tests] leaves behind: its [test_results], the rates of the
    summary as numbers and as printed ([:.1f]), the assessment and the value
    returned. *)
Record report : Type := Report {
  supported_countries : bool;
  connections : results;
  organizations : results;
  datasets : results;
  resources : results;
  integrated_workflow : bool;
  connection_success_rate : float;
  group_success_rates : option (float * float * float);
  printed_rates : list string;
  assessment : verdict;
  returned : bool
}.

Section World.

(** The wrapper under test: what a call answers (or raises), given the
    trace so far. *)
Variable api : list event -> api_call -> res pyval.

Definition C := M event.

Definition invoke (c : api_call) : C pyval :=
  fun log => (api log c, (log ++ [Call c])%list).

Definition print_header (message : string) : C unit :=
  fun log => (Ok tt, (log ++ [Header message])%list).

(** The loop over [required_metadata]: [true] when a field is missing. *)
Fixpoint missing_field (fields : list string) (metadata : pyval) : res bool :=
  match fields with
  | [] => Ok false
  | field :: rest =>
      match py_in field metadata with
      | Ok true => missing_field rest metadata
      | Ok false => Ok true
      | Raise e => Raise e
      end
  end.

Definition required_metadata : list string :=
  ["source"; "country"; "last_updated"; "count"].

(** [test_function(test_name, test_func, *args)]: the call is [test_func]
    applied to its arguments; the name is only printed. *)
Definition test_function (call : api_call) : C bool :=
  try_except
    (result <- invoke call ;;
     if negb (is_dict result) then ret false
     else
       has_error <- lift (py_in "error" result) ;;
       has_data <- lift (py_in "data" result) ;;
       has_metadata <- lift (py_in "metadata" result) ;;
       if negb has_error || negb has_data || negb has_metadata then ret false
       else
         e <- lift (py_getitem result "error") ;;
         if truthy e then ret false
         else
           metadata <- lift (py_getitem result "metadata") ;;
           missing <- lift (missing_field required_metadata metadata) ;;
           if (missing : bool) then ret false
           else
             data_count <- lift (py_get metadata "count" (PInt 0)) ;;
             ret true)
    (fun _ => ret false).

(** The body of the loop that prints the supported countries. *)
Fixpoint print_countries (countries : list pyval) : res unit :=
  match countries with
  | [] => Ok tt
  | country :: rest =>
      match py_getitem country "code" with
      | Raise e => Raise e
      | Ok _ =>
          match py_getitem country "name" with
          | Raise e => Raise e
          | Ok _ => print_countries rest
          end
      end
  end.

Definition test_supported_countries : C bool :=
  print_header "Testing Supported Countries Function" ;;;
  success <- test_function get_supported_countries ;;
  (if (success : bool) then
     result <- invoke get_supported_countries ;;
     countries <- lift (py_getitem result "data") ;;
     n <- lift (py_len countries) ;;
     items <- lift (py_iter countries) ;;
     lift (print_countries items)
   else ret tt) ;;;
  ret success.

(** A [for country in test_countries] loop that stores one outcome per
    country. *)
Fixpoint for_countries (body : string -> C bool) (test_countries : list string)
    (acc : results) : C results :=
  match test_countries with
  | [] => ret acc
  | country :: rest =>
      success <- body country ;;
      for_countries body rest (results_set country success acc)
  end.

Definition test_portal_connections (countries : list string) (fast_mode : bool)
  : C results :=
  print_header "Testing Portal Connections" ;;;
  let test_countries := if fast_mode then ["us"; "uk"; "au"] else countries in
  for_countries (fun country => test_function (test_portal_connection country))
                test_countries [].

(** [if not r['error'] and r['data']: ... r['data'][0][key]]: the value read,
    or [None] when the condition fails. *)
Definition first_item (r : pyval) (key : string) : res (option pyval) :=
  match py_getitem r "error" with
  | Raise e => Raise e
  | Ok e =>
      if truthy e then Ok None
      else
        match py_getitem r "data" with
        | Raise e => Raise e
        | Ok d =>
            if negb (truthy d) then Ok None
            else
              match py_first d with
              | Raise e => Raise e
              | Ok x =>
                  match py_getitem x key with
                  | Raise e => Raise e
                  | Ok v => Ok (Some v)
                  end
              end
        end
  end.

Definition organization_body (country : string) : C bool :=
  success1 <- test_function (list_organizations country 5) ;;
  org_details_success <-
    (if (success1 : bool) then
       try_except
         (org_result <- invoke (list_organizations country 1) ;;
          found <- lift (first_item org_result "name") ;;
          match found with
          | Some org_name =>
              test_function (get_organization_details country org_name)
          | None => ret false
          end)
         (fun _ => ret false)
     else ret false) ;;
  ret (success1 && org_details_success).

Definition test_organization_functions (countries : list string)
    (fast_mode : bool) : C results :=
  print_header "Testing Organization Functions" ;;;
  let test_countries := if fast_mode then firstn 2 countries else countries in
  for_countries organization_body test_countries [].

Definition dataset_body (country : string) : C bool :=
  success1 <- test_function (list_datasets country 10) ;;
  success2 <- test_function (search_datasets country "climate" 5) ;;
  details_success <-
    (if (success2 : bool) then
       try_except
         (search_result <- invoke (search_datasets country "climate" 1) ;;
          found <- lift (first_item search_result "name") ;;
          match found with
          | Some dataset_name =>
              test_function (get_dataset_details country dataset_name)
          | None => ret false
          end)
         (fun _ => ret false)
     else ret false) ;;
  ret (success1 && success2 && details_success).

Definition test_dataset_functions (countries : list string)
    (fast_mode : bool) : C results :=
  print_header "Testing Dataset Functions" ;;;
  let test_countries := if fast_mode then firstn 2 countries else countries in
  for_countries dataset_body test_countries [].

Definition resource_body (country : string) : C bool :=
  dataset_name <-
    try_except
      (search_result <- invoke (search_datasets country "data" 1) ;;
       lift (first_item search_result "name"))
      (fun _ => ret None) ;;
  match dataset_name with
  | None => ret false
  | Some dataset_name =>
      if negb (truthy dataset_name) then ret false
      else
        success1 <- test_function (get_dataset_resources country dataset_name) ;;
        details_success <-
          (if (success1 : bool) then
             try_except
               (resources_result <-
                  invoke (get_dataset_resources country dataset_name) ;;
                found <- lift (first_item resources_result "id") ;;
                match found with
                | Some resource_id =>
                    test_function (get_resource_details country resource_id)
                | None => ret false
                end)
               (fun _ => ret false)
           else ret false) ;;
        ret (success1 && details_success)
  end.

Definition test_resource_functions (countries : list string)
    (fast_mode : bool) : C results :=
  print_header "Testing Resource Functions" ;;;
  let test_countries := if fast_mode then firstn 1 countries else countries in
  for_countries resource_body test_countries [].

(** [test_integrated_workflow(countries)]: the argument is not used. *)
Definition test_integrated_workflow (countries : list string) : C bool :=
  print_header "Testing Integrated Workflow" ;;;
  let country := "us" in
  try_except
    (search_result <- invoke (search_datasets country "climate" 3) ;;
     e <- lift (py_getitem search_result "error") ;;
     if truthy e then ret false
     else
       datasets <- lift (py_getitem search_result "data") ;;
       if negb (truthy datasets) then ret false
       else
         n <- lift (py_len datasets) ;;
         first <- lift (py_first datasets) ;;
         dataset_name <- lift (py_getitem first "name") ;;
         details_result <- invoke (get_dataset_details country dataset_name) ;;
         e <- lift (py_getitem details_result "error") ;;
         if truthy e then ret false
         else
           dataset_details <- lift (py_getitem details_result "data") ;;
           title <- lift (py_getitem dataset_details "title") ;;
           resources_result <-
             invoke (get_dataset_resources country dataset_name) ;;
           e <- lift (py_getitem resources_result "error") ;;
           if truthy e then ret false
           else
             resources <- lift (py_getitem resources_result "data") ;;
             n <- lift (py_len resources) ;;
             organization <-
               lift (py_get dataset_details "organization" (PDict [])) ;;
             org_name <- lift (py_get organization "name" PNone) ;;
             (if truthy org_name then
                org_result <-
                  invoke (get_organization_details country org_name) ;;
                e <- lift (py_getitem org_result "error") ;;
                if truthy e then ret tt
                else
                  d <- lift (py_getitem org_result "data") ;;
                  title <- lift (py_getitem d "title") ;;
                  ret tt
              else ret tt) ;;;
             ret true)
    (fun _ => ret false).

(** The [if / elif / else] of the overall assessment. *)
Definition assess (connection_success_rate : float) (workflow : bool) : verdict :=
  if PrimFloat.eqb connection_success_rate 100%float && workflow then AllPassed
  else if PrimFloat.leb 50%float connection_success_rate then PartiallyWorking
  else MostlyFailed.

Definition verdict_value (v : verdict) : bool :=
  match v with
  | AllPassed => true
  | PartiallyWorking => false
  | MostlyFailed => false
  end.

(** [[c for c, success in connection_results.items() if success]] *)
Definition working (connection_results : results) : list string :=
  map fst (filter (fun kv => snd kv) connection_results).

Definition percent (rate : float) : string := format_1f rate ++ "%".

Definition run_all_tests (countries : option (list string)) (fast_mode : bool)
  : C report :=
  print_header "Universal CKAN API Wrapper - Test Suite" ;;;
  let countries :=
    match countries with Some l => l | None => ALL_COUNTRIES end in
  supported <- test_supported_countries ;;
  connection_results <- test_portal_connections countries fast_mode ;;
  let working_countries := working connection_results in
  groups <-
    match working_countries with
    | _ :: _ =>
        organizations <- test_organization_functions working_countries fast_mode ;;
        datasets <- test_dataset_functions working_countries fast_mode ;;
        resources <- test_resource_functions working_countries fast_mode ;;
        workflow <- test_integrated_workflow working_countries ;;
        ret (organizations, datasets, resources, workflow)
    | [] => ret ([], [], [], false)
    end ;;
  let '(organizations, datasets, resources, workflow) := groups in
  print_header "Test Summary" ;;;
  connection_success_rate <- lift (success_rate connection_results) ;;
  group_rates <-
    match working_countries with
    | _ :: _ =>
        org_success_rate <- lift (success_rate organizations) ;;
        dataset_success_rate <- lift (success_rate datasets) ;;
        resource_success_rate <- lift (success_rate resources) ;;
        ret (Some (org_success_rate, dataset_success_rate, resource_success_rate))
    | [] => ret None
    end ;;
  print_header "Overall Assessment" ;;;
  let printed :=
    percent connection_success_rate ::
    match group_rates with
    | Some (o, d, r) => [percent o; percent d; percent r]
    | None => []
    end in
  let v := assess connection_success_rate workflow in
  ret (Report supported connection_results organizations datasets resources
         workflow connection_success_rate group_rates printed v
         (verdict_value v)).

(** [sys.argv.index('--country')]: the position of the first occurrence. *)
Fixpoint index_of (x : string) (l : list string) : option nat :=
  match l with
  | [] => None
  | y :: l' =>
      if String.eqb y x then Some O
      else match index_of x l' with
           | Some n => Some (S n)
           | None => None
           end
  end.

Definition member (x : string) (l : list string) : bool :=
  existsb (String.eqb x) l.

(** [main]: the exit status of the process.  An exception that leaves
    [run_all_tests] ends the process with status 1. *)
Definition main (argv : list string) : list event -> Z * list event :=
  fun log =>
    let fast_mode := member "--fast" argv in
    let run countries :=
      match run_all_tests countries fast_mode log with
      | (Ok r, log') => ((if returned r then 0 else 1)%Z, log')
      | (Raise _, log') => (1%Z, log')
      end in
    match index_of "--country" argv with
    | Some i =>
        let country_index := S i in
        match nth_error argv country_index with
        | Some a =>
            let country := PyStr.lower a in
            if negb (member country ALL_COUNTRIES) then (1%Z, log)
            else run (Some [country])
        | None => run None
        end
    | None => run None
    end.

End World.
(** *** The vocabulary of the statements about the harness *)

(** An event that is a call addressed to one of the portals [cs]. *)
Definition about (cs : list string) (e : event) : Prop :=
  match e with
  | Call c => exists k, call_country c = Some k /\ In k cs
  | Header _ => False
  end.

(** An event that is a call, whatever it is addressed to. *)
Definition is_call (e : event) : Prop :=
  match e with
  | Call _ => True
  | Header _ => False
  end.

(** A computation that, from any trace, ends (in a value or an exception)
    having added only events of [P]; and one that moreover never raises. *)
Definition emits {A} (P : event -> Prop) (m : M event A) : Prop :=
  forall log, exists r tr, m log = (r, (log ++ tr)%list) /\ Forall P tr.

Definition runs {A} (P : event -> Prop) (m : M event A) : Prop :=
  forall log, exists a tr, m log = (Ok a, (log ++ tr)%list) /\ Forall P tr.

(** What a loop over countries leaves: it never raises when its body never
    does, adds only events of [P], and stores outcomes for the countries of
    the loop only. *)
Definition loop_ok (P : event -> Prop) (cs : list string) (acc : results)
    (m : M event results) : Prop :=
  forall log, exists r tr,
    m log = (Ok r, (log ++ tr)%list)
    /\ Forall P tr
    /\ (forall k, In k (map fst r) <-> In k (map fst acc) \/ In k cs)
    /\ (NoDup (map fst acc) -> NoDup (map fst r))
    /\ (acc <> [] \/ cs <> [] -> r <> []).






(** The portals whose connection a run tests. *)
Definition targets (countries : option (list string)) (fast_mode : bool)
  : list string :=
  if fast_mode then ["us"; "uk"; "au"]
  else match countries with Some l => l | None => ALL_COUNTRIES end.

(** An answer of the wrapper read as the harness reads it. *)
Definition failed (r : pyval) : Prop :=
  exists e, py_getitem r "error" = Ok e /\ truthy e = true.

Definition no_error (r : pyval) : Prop :=
  exists e, py_getitem r "error" = Ok e /\ truthy e = false.

Definition payload (r d : pyval) : Prop := py_getitem r "data" = Ok d.

(** [dataset_details.get('organization', {}).get('name')] *)
Definition org_name_of (dataset_details : pyval) : res pyval :=
  match py_get dataset_details "organization" (PDict []) with
  | Ok organization => py_get organization "name" PNone
  | Raise e => Raise e
  end.





(** An envelope as the wrapper builds it on success, and one with an error. *)
Definition ok_answer (d : pyval) : pyval :=
  PDict [ ("data", d);
          ("metadata", PDict [ ("source", PStr "ckan"); ("country", PStr "us");
                               ("last_updated", PStr "2024-06-01T12:00:00");
                               ("count", PInt 1) ]);
          ("error", PNone) ].

Definition error_answer (msg : string) : pyval :=
  PDict [ ("data", PList []);
          ("metadata", PDict [ ("source", PStr "ckan"); ("country", PStr "us") ]);
          ("error", PStr msg) ].

(** A wrapper whose portals all answer, except that no organization can be
    looked up. *)
Definition sample_api : list event -> api_call -> res pyval :=
  fun _ c =>
    match c with
    | get_supported_countries =>
        Ok (ok_answer (PList [PDict [("code", PStr "us"); ("name", PStr "USA")]]))
    | test_portal_connection _ => Ok (ok_answer (PDict []))
    | search_datasets _ _ _ | list_datasets _ _ | list_organizations _ _ =>
        Ok (ok_answer (PList [PDict [("name", PStr "climate-data")]]))
    | get_dataset_details _ _ =>
        Ok (ok_answer (PDict [ ("title", PStr "Climate data");
                               ("organization", PDict [("name", PStr "noaa")]) ]))
    | get_dataset_resources _ _ =>
        Ok (ok_answer (PList [PDict [("id", PStr "r1")]]))
    | get_organization_details _ _ => Ok (error_answer "Organization not found")
    | get_resource_details _ _ => Ok (ok_answer (PDict []))
    end.


End Ckan.

(** ** us_treasury_fiscaldata_api.py: the command line *)

Module TreasuryCli.
Import Py Treasury.
Local Open Scope string_scope.

(** The sub-command [argparse] hands to [main], with its arguments ([None]
    for an option that was not given; the defaults of [--page-size] and
    [--page-number] are the parser's). *)
Inductive command : Type :=
| Catalogue
| Category (category : string)
| Debt (start_date end_date : option string)
| Yields (start_date end_date : option string)
| Monthly (start_date end_date : option string)
| Interest (start_date end_date : option string)
| Dataset (endpoint : string) (fields filter_arg sort : option string)
          (page_size page_number : Z)
| Summary (endpoint : string)
| Search (query : string)
| Test.

Section World.
Variable now : string.
Variable py_repr : pyval -> string.
Variable http : list http_get -> http_get -> http_outcome.

(** The [if args.command == ... elif ...] chain. *)
Definition run_command (c : command) : T envelope :=
  match c with
  | Catalogue => ret (get_catalogue now)
  | Category category => ret (get_datasets_by_category now category)
  | Debt s e => get_debt_to_penny now py_repr http s e
  | Yields s e => get_treasury_yield_rates now py_repr http s e
  | Monthly s e => get_monthly_treasury_statement now py_repr http s e
  | Interest s e => get_interest_expense now py_repr http s e
  | Dataset endpoint fields filter_arg sort page_size page_number =>
      get_dataset_data now py_repr http endpoint fields filter_arg sort
        page_size page_number
  | Summary endpoint => get_dataset_summary now py_repr http endpoint
  | Search query => ret (search_datasets now query)
  | Test => test_endpoints now py_repr http
  end.

(** [main]: the exit status of the process.  Without a sub-command the help
    is printed and the status is 1; otherwise the envelope is printed and the
    status is 1 when its [error] is truthy (an exception that escaped would
    also end the process with status 1). *)
Definition main (args : option command) : list http_get -> Z * list http_get :=
  fun log =>
    match args with
    | None => (1%Z, log)
    | Some c =>
        match run_command c log with
        | (Ok result, log') => (exit_code result, log')
        | (Raise _, log') => (1%Z, log')
        end
    end.

End World.

(** *** The vocabulary of the further statements *)

(** [400 <= status_code < 600]: what [raise_for_status] raises on. *)
Definition is_http_error (st : Z) : bool := ((400 <=? st) && (st <? 600))%Z.

(** An optional parameter as [get_dataset_data] adds it. *)
Definition optional (key : string) (o : option string) : dict :=
  if given o then [(key, PStr (text_of o))] else [].

(** A body [_make_request] accepts: a dictionary without ["error"], whose
    ["data"], when present, has a length and whose ["meta"], when present, is
    a dictionary. *)
Definition acceptable (body : pyval) : Prop :=
  exists d,
    body = PDict d
    /\ dict_has "error" d = false
    /\ (exists records n, py_get body "data" (PList []) = Ok records
                          /\ py_len records = Ok n)
    /\ (exists meta, py_get body "meta" (PDict []) = Ok meta
                     /\ is_dict meta = true).

(** A character that [str.split()] would split on occurs in the text. *)
Fixpoint has_space (s : string) : bool :=
  match s with
  | EmptyString => false
  | String c s' => PyStr.is_space c || has_space s'
  end.

(** What a body holds under ["data"] (else the empty list), the bindings
    under ["meta"] (else none), and a binding or else a default. *)
Definition records_of (d : dict) : pyval :=
  match dict_get "data" d with Some v => v | None => PList [] end.

Definition meta_of (d : dict) : dict :=
  match dict_get "meta" d with Some (PDict m) => m | _ => [] end.

Definition or_default (k : string) (default : pyval) (m : dict) : pyval :=
  match dict_get k m with Some v => v | None => default end.

(** A remote that answers with two records and no ["meta"]. *)
Definition two_records : dict :=
  [ ("data", PList [ PDict [("record_date", PStr "2024-01-03")];
                     PDict [("record_date", PStr "2024-01-02")] ]) ].
Definition two_record_remote : list http_get -> http_get -> http_outcome :=
  fun _ _ => GetReturns 200 "OK" (Some (PDict two_records)).

(** A check of [test_endpoints] counts when the envelope has no error. *)
Definition passed (env : envelope) : nat :=
  match error env with None => 1 | Some _ => 0 end.

(** The number of GETs a sub-command issues. *)
Definition gets (c : command) : nat :=
  match c with
  | Catalogue | Category _ | Search _ => 0
  | Test => 2
  | _ => 1
  end.

End TreasuryCli.
(** ** test_universal_ckan_api.py: what a run does to the wrapper *)

Module CkanRun.
Import Py Ckan.
Local Open Scope string_scope.

(** An answer [test_function] accepts: a dictionary with ["data"], a falsy
    ["error"], and under ["metadata"] a dictionary with the four required
    fields. *)
Definition well_formed (answer : res pyval) : Prop :=
  exists d e m,
    answer = Ok (PDict d)
    /\ dict_has "data" d = true
    /\ dict_get "error" d = Some e /\ truthy e = false
    /\ dict_get "metadata" d = Some (PDict m)
    /\ forallb (fun field => dict_has field m) required_metadata = true.

(** An event of a run that tests the portals [T]: a call is the one for the
    supported countries, or is addressed to one of [T] or to ["us"]. *)
Definition addressed (T : list string) (e : event) : Prop :=
  match e with
  | Header _ => True
  | Call c =>
      match call_country c with
      | None => True
      | Some k => In k T \/ k = "us"
      end
  end.

(** The number of calls in a trace. *)
Definition is_call_event (e : event) : bool :=
  match e with Call _ => true | Header _ => false end.

Definition call_count (tr : list event) : nat :=
  List.length (filter is_call_event tr).

(** A computation that, from any trace, ends (in a value or an exception)
    having added only events of a run on [T], with at most [n] calls among
    them. *)
Definition footprint {A} (T : list string) (n : nat) (m : M event A) : Prop :=
  forall log, exists r tr,
    m log = (r, (log ++ tr)%list)
    /\ Forall (addressed T) tr /\ (call_count tr <= n)%nat.

(** The calls a run may make: 27 in fast mode, else 6 and 12 for each portal
    it is to test. *)
Definition call_budget (countries : option (list string)) (fast_mode : bool)
  : nat :=
  if fast_mode then 27 else 6 + 12 * List.length (targets countries fast_mode).

(** An entry of the list of supported countries that can be printed. *)
Definition country_entry (v : pyval) : Prop :=
  exists kv, v = PDict kv /\ dict_has "code" kv = true /\ dict_has "name" kv = true.

(** *** The steps of the integrated workflow *)

(** An operation on an answer raised. *)
Definition unreadable {A} (r : res A) : Prop := exists x, r = Raise x.

(** A step breaks: the call raises, or its answer has no ["error"] to read,
    or it has no error and no ["data"] to read.  (An answer that carries an
    error is [failed]; one that carries [d] without an error has
    [no_error] and [payload].) *)
Definition breaks (answer : res pyval) : Prop :=
  match answer with
  | Raise _ => True
  | Ok r =>
      match py_getitem r "error" with
      | Raise _ => True
      | Ok e => truthy e = false /\ unreadable (py_getitem r "data")
      end
  end.

(** Wrappers that answer as [sample_api] does, except that the lookup of an
    organization raises, or answers without an error and without a title,
    or that the details of a dataset hold [None] for its organization. *)
Definition raising_org_api : list event -> api_call -> res pyval :=
  fun log c =>
    match c with
    | get_organization_details _ _ => Raise ConnectionError
    | _ => sample_api log c
    end.

Definition untitled_org_api : list event -> api_call -> res pyval :=
  fun log c =>
    match c with
    | get_organization_details _ _ => Ok (ok_answer (PDict [("name", PStr "noaa")]))
    | _ => sample_api log c
    end.

Definition null_org_api : list event -> api_call -> res pyval :=
  fun log c =>
    match c with
    | get_dataset_details _ _ =>
        Ok (ok_answer (PDict [ ("title", PStr "Climate data");
                               ("organization", PNone) ]))
    | _ => sample_api log c
    end.

End CkanRun.
(** * Facts about us_treasury_fiscaldata_api.py *)

Module TreasuryFacts.
Import Py Treasury.
Local Open Scope string_scope.

Lemma sized_not_none v : sized v -> v <> PNone.
Proof. intros [n H] ->. discriminate. Qed.

Lemma envelope_ok_sized env : envelope_ok env -> sized (data env).
Proof.
  intros (_ & _ & _ & H). destruct (error env).
  - destruct H as [-> _]. exists 0%nat. reflexivity.
  - exact H.
Qed.

(** ** Sorting *)

Section Sorting.
Context {A : Type} (key : A -> Z).

Lemma insert_desc_In x y l : In y (insert_desc key x l) <-> y = x \/ In y l.
Proof.
  induction l as [|z l IH]; simpl.
  - intuition.
  - destruct (key x <? key z)%Z; simpl; rewrite ?IH; intuition.
Qed.

Lemma insert_desc_sorted x l :
  StronglySorted (desc key) l -> StronglySorted (desc key) (insert_desc key x l).
Proof.
  induction 1 as [|z l Hs IH Hz]; simpl.
  - constructor; constructor.
  - destruct (key x <? key z)%Z eqn:E.
    + constructor; [exact IH|].
      apply Forall_forall. intros y Hy. apply insert_desc_In in Hy.
      destruct Hy as [->|Hy].
      * unfold desc. apply Z.ltb_lt in E. lia.
      * rewrite Forall_forall in Hz. auto.
    + apply Z.ltb_ge in E. constructor.
      * constructor; assumption.
      * constructor; [exact E|].
        rewrite Forall_forall in *. intros y Hy. specialize (Hz y Hy).
        unfold desc in *. lia.
Qed.

Lemma sort_desc_sorted l : StronglySorted (desc key) (sort_desc key l).
Proof.
  induction l; simpl; [constructor | apply insert_desc_sorted; assumption].
Qed.

Lemma sort_desc_In y l : In y (sort_desc key l) <-> In y l.
Proof.
  induction l; simpl; [tauto|]. rewrite insert_desc_In, IHl. intuition.
Qed.

Lemma insert_desc_perm x l : Permutation (x :: l) (insert_desc key x l).
Proof.
  induction l as [|z l IH]; simpl; [reflexivity|].
  destruct (key x <? key z)%Z; [|reflexivity].
  etransitivity; [apply perm_swap|]. constructor. exact IH.
Qed.

Lemma sort_desc_perm l : Permutation l (sort_desc key l).
Proof.
  induction l; simpl; [constructor|].
  etransitivity; [|apply insert_desc_perm]. constructor. assumption.
Qed.

(** Entries of one key keep their order. *)
Lemma insert_desc_stable k x l :
  with_key key k (insert_desc key x l) = with_key key k (x :: l).
Proof.
  unfold with_key. induction l as [|z l IH]; simpl; [reflexivity|].
  destruct (key x <? key z)%Z eqn:E; [|reflexivity].
  simpl. rewrite IH. simpl.
  destruct (key x =? k)%Z eqn:Ex; [|reflexivity].
  destruct (key z =? k)%Z eqn:Ez; [|reflexivity].
  apply Z.eqb_eq in Ex, Ez. apply Z.ltb_lt in E. lia.
Qed.

Lemma sort_desc_stable k l : with_key key k (sort_desc key l) = with_key key k l.
Proof.
  induction l as [|x l IH]; simpl; [reflexivity|].
  rewrite insert_desc_stable. unfold with_key in *. simpl. rewrite IH. reflexivity.
Qed.

End Sorting.
(** ** The request executor *)

Section Executor.
Variable now : string.
Variable py_repr : pyval -> string.
Variable http : list http_get -> http_get -> http_outcome.

Lemma request_error_ok endpoint params msg :
  msg <> "" ->
  envelope_ok (request_error now endpoint params msg) /\
  count_ok (request_error now endpoint params msg).
Proof.
  intros Hm. split.
  - repeat split; try reflexivity; try discriminate; auto.
  - intros H; discriminate.
Qed.

Ltac error_leaf :=
  simpl; eexists;
  (split; [split; [reflexivity
                  |split; [apply request_error_ok
                          |split; [apply request_error_ok
                                  |intros ?; discriminate]]]
          |split; reflexivity]);
  simpl; discriminate.

Ltac step_res :=
  match goal with
  | |- context [match ?r with Ok _ => _ | Raise _ => _ end] =>
      let e := fresh "e" in
      destruct r as [? | e] eqn:?; [ | destruct e; error_leaf ]
  end.

Lemma _make_request_runs endpoint params log :
  exists env,
    runs_with http (_make_request now py_repr http endpoint params) log
              (request_of endpoint params) env
    /\ dict_get "endpoint" (metadata env) = Some (PStr endpoint)
    /\ dict_get "params" (metadata env) = Some (PDict (prepare_params params)).
Proof.
  unfold runs_with, from_remote, _make_request, try_except, _make_request_try,
    bind, requests_get, request_of.
  set (p := prepare_params params).
  set (g := HttpGet _ p TIMEOUT).
  destruct (http log g) as [e | st rs body].
  - destruct e; error_leaf.
  - unfold raise_for_status, response_json, throw, ret, lift.
    destruct ((400 <=? st)%Z && (st <? 600)%Z); [error_leaf|].
    destruct body as [v|]; [|error_leaf].
    simpl.
    step_res.
    destruct a.
    + step_res. error_leaf.
    + repeat step_res.
      simpl. eexists.
      assert (Hs : sized a) by (eexists; eassumption).
      split; [split; [reflexivity|split; [|split]] | split; reflexivity].
      * split; [apply sized_not_none, Hs|].
        repeat split; try reflexivity. exact Hs.
      * intros _. exists a0. split; [assumption|reflexivity].
      * intros _. exists st, rs, v. split; [reflexivity|assumption].
Qed.

Lemma get_dataset_data_runs endpoint fields filter_arg sort page_size page_number log :
  exists env,
    runs_with http (get_dataset_data now py_repr http endpoint fields filter_arg sort
                 page_size page_number) log
      (request_of endpoint
         (Some (dataset_params fields filter_arg sort page_size page_number))) env.
Proof.
  destruct (_make_request_runs endpoint
              (Some (dataset_params fields filter_arg sort page_size page_number)) log)
    as (env & (Hrun & Hok & Hc & Hr) & _).
  exists env. unfold runs_with, get_dataset_data, try_except.
  rewrite Hrun. auto.
Qed.

Lemma get_dataset_summary_runs endpoint log :
  exists env,
    runs_with http (get_dataset_summary now py_repr http endpoint) log
      (request_of endpoint (Some (dataset_params None None None 5 1))) env.
Proof.
  destruct (get_dataset_data_runs endpoint None None None 5 1 log)
    as (env & Hrun & H).
  exists env. unfold runs_with, get_dataset_summary, try_except.
  rewrite Hrun. auto.
Qed.

Lemma series_request_of path (fields : option string) start_date end_date :
  (fields = None \/ fields = Some "record_date,tot_pub_debt_out_amt") ->
  request_of path
    (Some (dataset_params fields (Some (filter_expr start_date end_date))
             (Some "-record_date") 500 1))
  = series_request path fields start_date end_date.
Proof.
  intros Hf. unfold request_of, series_request, series_params. f_equal.
  unfold dataset_params, prepare_params, filter_expr.
  destruct Hf as [-> | ->];
    destruct (given start_date) eqn:Hs, (given end_date) eqn:He; reflexivity.
Qed.

Lemma get_debt_to_penny_runs start_date end_date log :
  exists env,
    runs_with http (get_debt_to_penny now py_repr http start_date end_date) log
      (series_request "v2/accounting/od/debt_to_penny"
         (Some "record_date,tot_pub_debt_out_amt") start_date end_date) env.
Proof.
  destruct (get_dataset_data_runs "v2/accounting/od/debt_to_penny"
              (Some "record_date,tot_pub_debt_out_amt")
              (Some (filter_expr start_date end_date)) (Some "-record_date") 500 1 log)
    as (env & Hrun & H).
  exists env. rewrite series_request_of in Hrun, H by auto.
  unfold runs_with, get_debt_to_penny, try_except in *. rewrite Hrun. auto.
Qed.

Lemma get_treasury_yield_rates_runs start_date end_date log :
  exists env,
    runs_with http (get_treasury_yield_rates now py_repr http start_date end_date) log
      (series_request "v2/accounting/od/avg_interest_rates" None start_date end_date) env.
Proof.
  destruct (get_dataset_data_runs "v2/accounting/od/avg_interest_rates" None
              (Some (filter_expr start_date end_date)) (Some "-record_date") 500 1 log)
    as (env & Hrun & H).
  exists env. rewrite series_request_of in Hrun, H by auto.
  unfold runs_with, get_treasury_yield_rates, try_except in *. rewrite Hrun. auto.
Qed.

Lemma get_monthly_treasury_statement_runs start_date end_date log :
  exists env,
    runs_with http (get_monthly_treasury_statement now py_repr http start_date end_date) log
      (series_request "v2/revenue/rc/collections" None start_date end_date) env.
Proof.
  destruct (get_dataset_data_runs "v2/revenue/rc/collections" None
              (Some (filter_expr start_date end_date)) (Some "-record_date") 500 1 log)
    as (env & Hrun & H).
  exists env. rewrite series_request_of in Hrun, H by auto.
  unfold runs_with, get_monthly_treasury_statement, try_except in *. rewrite Hrun. auto.
Qed.

Lemma get_interest_expense_runs start_date end_date log :
  exists env,
    runs_with http (get_interest_expense now py_repr http start_date end_date) log
      (series_request "v2/debt/ie/ie_bpd" None start_date end_date) env.
Proof.
  destruct (get_dataset_data_runs "v2/debt/ie/ie_bpd" None
              (Some (filter_expr start_date end_date)) (Some "-record_date") 500 1 log)
    as (env & Hrun & H).
  exists env. rewrite series_request_of in Hrun, H by auto.
  unfold runs_with, get_interest_expense, try_except in *. rewrite Hrun. auto.
Qed.

(** ** The accessors over the registry *)

Lemma get_catalogue_ok :
  envelope_ok (get_catalogue now) /\ count_ok (get_catalogue now)
  /\ is_list (data (get_catalogue now)) = true.
Proof.
  unfold get_catalogue, try_pure. cbv zeta.
  split; [|split; [|reflexivity]].
  - repeat split; try reflexivity; try discriminate.
    eexists; reflexivity.
  - intros _. eexists. split; reflexivity.
Qed.

Lemma get_datasets_by_category_ok category :
  envelope_ok (get_datasets_by_category now category)
  /\ count_ok (get_datasets_by_category now category)
  /\ is_list (data (get_datasets_by_category now category)) = true.
Proof.
  unfold get_datasets_by_category, try_pure. cbv zeta.
  destruct (filter _ _get_available_datasets) as [|d l].
  - split; [|split; [|reflexivity]].
    + repeat split; try reflexivity; discriminate.
    + intros H; discriminate.
  - split; [|split; [|reflexivity]].
    + repeat split; try reflexivity; try discriminate. eexists; reflexivity.
    + intros _. eexists. split; reflexivity.
Qed.

Lemma search_datasets_ok query :
  envelope_ok (search_datasets now query)
  /\ count_ok (search_datasets now query)
  /\ is_list (data (search_datasets now query)) = true.
Proof.
  unfold search_datasets, try_pure. cbv zeta.
  split; [|split; [|reflexivity]].
  - repeat split; try reflexivity; try discriminate. eexists; reflexivity.
  - intros _. eexists. split; [reflexivity|]. simpl.
    rewrite length_map. reflexivity.
Qed.

(** ** [test_endpoints] *)

Lemma test_record_runs name env (log : list http_get) :
  envelope_ok env ->
  exists d, test_record name env log = (Ok (PDict d), log)
            /\ (is_success (PDict d) = match error env with None => true | Some _ => false end).
Proof.
  intros Hok. destruct (envelope_ok_sized env Hok) as [n Hn].
  unfold test_record, bind, lift, ret. rewrite Hn.
  eexists. split; [reflexivity|].
  destruct (error env); reflexivity.
Qed.

Lemma test_endpoints_runs log :
  exists env log' results,
    test_endpoints now py_repr http log = (Ok env, log')
    /\ error env = None
    /\ data env = PList results
    /\ List.length results = 5%nat
    /\ dict_get "count" (metadata env) = None
    /\ dict_get "total_tests" (metadata env) = Some (PInt 5)
    /\ has_key "source" (metadata env)
    /\ has_key "action" (metadata env).
Proof.
  unfold test_endpoints, try_except, bind.
  destruct (test_record_runs "get_catalogue" (get_catalogue now) log
              (proj1 get_catalogue_ok)) as (d1 & -> & _).
  destruct (get_debt_to_penny_runs None None log) as (e2 & -> & Hok2 & _).
  match goal with
  | |- context [test_record "get_debt_to_penny" e2 ?l] =>
      destruct (test_record_runs "get_debt_to_penny" e2 l Hok2) as (d2 & -> & _)
  end.
  match goal with
  | |- context [get_treasury_yield_rates _ _ _ _ _ ?l] =>
      destruct (get_treasury_yield_rates_runs None None l) as (e3 & -> & Hok3 & _)
  end.
  match goal with
  | |- context [test_record "get_treasury_yield_rates" e3 ?l] =>
      destruct (test_record_runs "get_treasury_yield_rates" e3 l Hok3)
        as (d3 & -> & _)
  end.
  match goal with
  | |- context [test_record "search_datasets" ?e ?l] =>
      destruct (test_record_runs "search_datasets" e l
                  (proj1 (search_datasets_ok "debt"))) as (d4 & -> & _)
  end.
  match goal with
  | |- context [test_record "get_datasets_by_category" ?e ?l] =>
      destruct (test_record_runs "get_datasets_by_category" e l
                  (proj1 (get_datasets_by_category_ok "accounting")))
        as (d5 & -> & _)
  end.
  cbv beta iota zeta.
  unfold lift, ret. 
  change (List.length [PDict d1; PDict d2; PDict d3; PDict d4; PDict d5]) with 5%nat.
  unfold py_truediv.
  do 3 eexists. split; [reflexivity|].
  repeat split; reflexivity.
Qed.

End Executor.
End TreasuryFacts.

(** * The claims about us_treasury_fiscaldata_api.py *)

Module TreasuryClaims.
Import Py Treasury TreasuryFacts.
Local Open Scope string_scope.

(** C1, as stated, fails: when the decoded body holds a dictionary under
    ["data"], [_make_request] returns it, without an error, as the envelope's
    [data]; a dictionary is not a sequence. *)
Lemma C1_counterexample :
  exists env log',
    _make_request "2024-06-01T12:00:00" (fun _ => "") mapping_remote
      "v2/accounting/od/debt_to_penny" None [] = (Ok env, log')
    /\ error env = None
    /\ data env = PDict [("a", PInt 1)]
    /\ is_sequence (data env) = false.
Proof.
  do 2 eexists. split; [vm_compute; reflexivity|].
  repeat split; reflexivity.
Qed.

(** C1, as amended: every accessor returns (none raises) an envelope whose
    [error] is either [None] or a non-empty text, whose [data] is never
    [None] and is the empty list whenever [error] is set, and whose
    [metadata] names the source and the action (and, for the request
    executor, the endpoint) in both cases.  Without an error, [data] is a
    list for the catalogue, category and search accessors; for the request
    executor and the accessors built on it, it is the value the decoded
    body holds under ["data"] (the empty list when it holds none), which
    always has a length. *)
Theorem C1_envelope_invariant now py_repr http :
  (forall endpoint params log,
      exists env,
        runs_with http (_make_request now py_repr http endpoint params) log
          (request_of endpoint params) env
        /\ has_key "endpoint" (metadata env))
  /\ (forall endpoint fields filter_arg sort page_size page_number log,
         exists env g,
           runs_with http
             (get_dataset_data now py_repr http endpoint fields filter_arg sort
                page_size page_number) log g env)
  /\ (forall endpoint log,
         exists env g,
           runs_with http (get_dataset_summary now py_repr http endpoint) log g env)
  /\ (forall start_date end_date log,
         (exists env g,
             runs_with http (get_debt_to_penny now py_repr http start_date end_date)
               log g env)
         /\ (exists env g,
                runs_with http
                  (get_treasury_yield_rates now py_repr http start_date end_date)
                  log g env)
         /\ (exists env g,
                runs_with http
                  (get_monthly_treasury_statement now py_repr http start_date end_date)
                  log g env)
         /\ (exists env g,
                runs_with http
                  (get_interest_expense now py_repr http start_date end_date)
                  log g env))
  /\ (envelope_ok (get_catalogue now)
      /\ is_list (data (get_catalogue now)) = true)
  /\ (forall category,
         envelope_ok (get_datasets_by_category now category)
         /\ is_list (data (get_datasets_by_category now category)) = true)
  /\ (forall query,
         envelope_ok (search_datasets now query)
         /\ is_list (data (search_datasets now query)) = true).
Proof.
  split; [|split; [|split; [|split; [|split; [|split]]]]].
  - intros endpoint params log.
    destruct (_make_request_runs now py_repr http endpoint params log)
      as (env & Hrun & He & _).
    exists env. split; [exact Hrun|]. unfold has_key, dict_has. rewrite He. reflexivity.
  - intros. destruct (get_dataset_data_runs now py_repr http endpoint fields
                        filter_arg sort page_size page_number log) as (env & H).
    eauto.
  - intros. destruct (get_dataset_summary_runs now py_repr http endpoint log)
      as (env & H). eauto.
  - intros. repeat apply conj.
    + destruct (get_debt_to_penny_runs now py_repr http start_date end_date log)
        as (env & H); eauto.
    + destruct (get_treasury_yield_rates_runs now py_repr http start_date end_date log)
        as (env & H); eauto.
    + destruct (get_monthly_treasury_statement_runs now py_repr http
                  start_date end_date log) as (env & H); eauto.
    + destruct (get_interest_expense_runs now py_repr http start_date end_date log)
        as (env & H); eauto.
  - destruct (get_catalogue_ok now) as (H1 & _ & H3). split; assumption.
  - intros category.
    destruct (get_datasets_by_category_ok now category) as (H1 & _ & H3).
    split; assumption.
  - intros query.
    destruct (search_datasets_ok now query) as (H1 & _ & H3).
    split; assumption.
Qed.

(** C2, as stated, fails: the envelope of [test_endpoints] has no error and
    no [count] in its metadata. *)
Lemma C2_counterexample :
  exists env log',
    test_endpoints "2024-06-01T12:00:00" (fun _ => "") one_record_remote []
      = (Ok env, log')
    /\ error env = None
    /\ dict_get "count" (metadata env) = None.
Proof.
  do 2 eexists. split; [vm_compute; reflexivity|].
  repeat split; reflexivity.
Qed.

(** C2, as amended: in every envelope without an error that the request
    executor, the catalogue, the category filter, the search or an accessor
    built on the executor returns, [metadata] holds [count], equal to
    [len(data)].  The envelope of [test_endpoints] never has an error and
    never holds [count]: it holds [total_tests], equal to the length of its
    [data], which is 5. *)
Theorem C2_count_matches_length now py_repr http :
  (forall endpoint params log,
      exists env log',
        _make_request now py_repr http endpoint params log = (Ok env, log')
        /\ count_ok env)
  /\ (forall endpoint fields filter_arg sort page_size page_number log,
         exists env log',
           get_dataset_data now py_repr http endpoint fields filter_arg sort
             page_size page_number log = (Ok env, log')
           /\ count_ok env)
  /\ (forall endpoint log,
         exists env log',
           get_dataset_summary now py_repr http endpoint log = (Ok env, log')
           /\ count_ok env)
  /\ (forall start_date end_date log,
         (exists env log',
             get_debt_to_penny now py_repr http start_date end_date log
               = (Ok env, log') /\ count_ok env)
         /\ (exists env log',
                get_treasury_yield_rates now py_repr http start_date end_date log
                  = (Ok env, log') /\ count_ok env)
         /\ (exists env log',
                get_monthly_treasury_statement now py_repr http start_date end_date log
                  = (Ok env, log') /\ count_ok env)
         /\ (exists env log',
                get_interest_expense now py_repr http start_date end_date log
                  = (Ok env, log') /\ count_ok env))
  /\ count_ok (get_catalogue now)
  /\ (forall category, count_ok (get_datasets_by_category now category))
  /\ (forall query, count_ok (search_datasets now query))
  /\ (forall log,
         exists env log' results,
           test_endpoints now py_repr http log = (Ok env, log')
           /\ error env = None
           /\ data env = PList results
           /\ List.length results = 5%nat
           /\ dict_get "count" (metadata env) = None
           /\ dict_get "total_tests" (metadata env)
              = Some (PInt (Z.of_nat (List.length results)))).
Proof.
  split; [|split; [|split; [|split; [|split; [|split; [|split]]]]]].
  - intros. destruct (_make_request_runs now py_repr http endpoint params log)
      as (env & (Hrun & _ & Hc & _) & _). eauto.
  - intros. destruct (get_dataset_data_runs now py_repr http endpoint fields
                        filter_arg sort page_size page_number log)
      as (env & Hrun & _ & Hc & _). eauto.
  - intros. destruct (get_dataset_summary_runs now py_repr http endpoint log)
      as (env & Hrun & _ & Hc & _). eauto.
  - intros. repeat apply conj.
    + destruct (get_debt_to_penny_runs now py_repr http start_date end_date log)
        as (env & Hrun & _ & Hc & _); eauto.
    + destruct (get_treasury_yield_rates_runs now py_repr http start_date end_date log)
        as (env & Hrun & _ & Hc & _); eauto.
    + destruct (get_monthly_treasury_statement_runs now py_repr http
                  start_date end_date log) as (env & Hrun & _ & Hc & _); eauto.
    + destruct (get_interest_expense_runs now py_repr http start_date end_date log)
        as (env & Hrun & _ & Hc & _); eauto.
  - exact (proj1 (proj2 (get_catalogue_ok now))).
  - intros category.
    exact (proj1 (proj2 (get_datasets_by_category_ok now category))).
  - intros query. exact (proj1 (proj2 (search_datasets_ok now query))).
  - intros log.
    destruct (test_endpoints_runs now py_repr http log)
      as (env & log' & results & Hrun & He & Hd & Hl & Hc & Ht & _).
    exists env, log', results. rewrite Hl. auto 10.
Qed.

Lemma collected_inv query x :
  In x (collected query) ->
  exists dataset,
    In dataset _get_available_datasets
    /\ PyStr.contains (PyStr.lower query) (PyStr.lower dataset) = true
    /\ x = search_info (PyStr.lower query) dataset.
Proof.
  unfold collected. cbv zeta. intros H.
  apply (proj1 (in_map_iff _ _ _)) in H.
  destruct H as (dataset & <- & H).
  apply (proj1 (filter_In _ _ _)) in H.
  exists dataset. tauto.
Qed.

Lemma path_of_search_info ql dataset : path_of (search_info ql dataset) = dataset.
Proof. reflexivity. Qed.

Lemma match_score_search_info ql dataset :
  match_score (search_info ql dataset) = Z.of_nat (count_tokens ql dataset).
Proof. reflexivity. Qed.

Lemma matching_datasets_In query x :
  In x (matching_datasets query) <-> In x (collected query).
Proof.
  unfold matching_datasets. exact (sort_desc_In match_score x (collected query)).
Qed.

Lemma debt_penny_empty : matching_datasets "debt penny" = [].
Proof. vm_compute. reflexivity. Qed.

(** C3: whatever the query, the entries [search_datasets] returns are in
    descending order of [match_score]; the [match_score] of an entry is the
    number of white-space separated words of the lowered query that occur in
    the lowered path of the entry; entries of equal score keep the order of
    the registry; and every entry returned for ["debt penny"] has ["debt"] or
    ["penny"] in its path. *)
Theorem C3_search_sorted_by_match_score now query :
  data (search_datasets now query) = PList (map PDict (matching_datasets query))
  /\ StronglySorted (desc match_score) (matching_datasets query)
  /\ (forall x, In x (matching_datasets query) ->
        In (path_of x) _get_available_datasets
        /\ match_score x
           = Z.of_nat
               (List.length
                  (filter (fun word => PyStr.contains word (PyStr.lower (path_of x)))
                          (PyStr.split_ws (PyStr.lower query)))))
  /\ (forall k,
        with_key match_score k (matching_datasets query)
        = with_key match_score k (collected query))
  /\ (forall x, In x (matching_datasets "debt penny") ->
        PyStr.contains "debt" (path_of x) || PyStr.contains "penny" (path_of x)
        = true).
Proof.
  split; [unfold search_datasets, try_pure; reflexivity|].
  split; [exact (sort_desc_sorted match_score (collected query))|].
  split; [|split].
  - intros x Hx. apply (proj1 (matching_datasets_In query x)) in Hx.
    apply collected_inv in Hx.
    destruct Hx as (dataset & Hin & _ & ->).
    rewrite path_of_search_info, match_score_search_info.
    split; [exact Hin|reflexivity].
  - intros k. exact (sort_desc_stable match_score k (collected query)).
  - intros x Hx. rewrite debt_penny_empty in Hx. destruct Hx.
Qed.

(** C10: an entry is in the result of a search exactly when the whole
    lowered query occurs, in one piece, in the lowered path; so the search
    for ["debt penny"] succeeds with no entry at all, although ["debt"]
    occurs in seven paths of the registry and ["penny"] in two. *)
Theorem C10_search_needs_whole_query now query :
  (forall x, In x (matching_datasets query) ->
     In (path_of x) _get_available_datasets
     /\ PyStr.contains (PyStr.lower query) (PyStr.lower (path_of x)) = true)
  /\ (forall dataset, In dataset _get_available_datasets ->
        (In (search_info (PyStr.lower query) dataset) (matching_datasets query)
         <-> PyStr.contains (PyStr.lower query) (PyStr.lower dataset) = true))
  /\ data (search_datasets now "debt penny") = PList []
  /\ error (search_datasets now "debt penny") = None
  /\ List.length (filter (fun d => PyStr.contains "debt" (PyStr.lower d))
                         _get_available_datasets) = 7%nat
  /\ List.length (filter (fun d => PyStr.contains "penny" (PyStr.lower d))
                         _get_available_datasets) = 2%nat.
Proof.
  split; [|split; [|split; [|split; [|split]]]].
  - intros x Hx. apply (proj1 (matching_datasets_In query x)) in Hx.
    apply collected_inv in Hx.
    destruct Hx as (dataset & Hin & Hc & ->).
    rewrite path_of_search_info. split; assumption.
  - intros dataset Hin. split.
    + intros Hx. apply (proj1 (matching_datasets_In query _)) in Hx.
      apply collected_inv in Hx.
      destruct Hx as (d' & _ & Hc & Heq).
      apply (f_equal path_of) in Heq.
      rewrite !path_of_search_info in Heq. subst d'. exact Hc.
    + intros Hc. apply (proj2 (matching_datasets_In query _)).
      unfold collected. cbv zeta.
      apply in_map. apply (proj2 (filter_In _ _ _)). split; assumption.
  - unfold search_datasets, try_pure. cbv zeta.
    rewrite debt_penny_empty. reflexivity.
  - unfold search_datasets, try_pure. reflexivity.
  - vm_compute. reflexivity.
  - vm_compute. reflexivity.
Qed.

(** C4: the filter expression is exactly
    ["record_date:gte:2024-01-01"] for that start date alone,
    ["record_date:lte:2024-06-01"] for that end date alone, both, joined by a
    comma, for the two together, and the empty text for neither; and the GET
    of each series accessor carries the expression under ["filter"] when a
    date is given and has no ["filter"] parameter when none is. *)
Theorem C4_date_range_filter now py_repr http log :
  filter_expr (Some "2024-01-01") None = "record_date:gte:2024-01-01"
  /\ filter_expr None (Some "2024-06-01") = "record_date:lte:2024-06-01"
  /\ filter_expr (Some "2024-01-01") (Some "2024-06-01")
     = "record_date:gte:2024-01-01,record_date:lte:2024-06-01"
  /\ filter_expr None None = ""
  /\ (forall accessor,
        In accessor [ get_debt_to_penny now py_repr http;
                      get_treasury_yield_rates now py_repr http;
                      get_monthly_treasury_statement now py_repr http;
                      get_interest_expense now py_repr http ] ->
        (exists env g,
            accessor None None log = (Ok env, (log ++ [g])%list)
            /\ dict_has "filter" (get_params g) = false)
        /\ (exists env g,
               accessor (Some "2024-01-01") None log = (Ok env, (log ++ [g])%list)
               /\ dict_get "filter" (get_params g)
                  = Some (PStr "record_date:gte:2024-01-01"))
        /\ (exists env g,
               accessor None (Some "2024-06-01") log = (Ok env, (log ++ [g])%list)
               /\ dict_get "filter" (get_params g)
                  = Some (PStr "record_date:lte:2024-06-01"))
        /\ (exists env g,
               accessor (Some "2024-01-01") (Some "2024-06-01") log
               = (Ok env, (log ++ [g])%list)
               /\ dict_get "filter" (get_params g)
                  = Some (PStr "record_date:gte:2024-01-01,record_date:lte:2024-06-01"))).
Proof.
  split; [reflexivity|]. split; [reflexivity|]. split; [reflexivity|].
  split; [reflexivity|].
  intros accessor Hin. simpl in Hin.
  destruct Hin as [<- | [<- | [<- | [<- | []]]]].
  - repeat split.
    + destruct (get_debt_to_penny_runs now py_repr http None None log)
        as (env & Hrun & _). eauto.
    + destruct (get_debt_to_penny_runs now py_repr http (Some "2024-01-01") None log)
        as (env & Hrun & _). eauto.
    + destruct (get_debt_to_penny_runs now py_repr http None (Some "2024-06-01") log)
        as (env & Hrun & _). eauto.
    + destruct (get_debt_to_penny_runs now py_repr http (Some "2024-01-01")
                  (Some "2024-06-01") log) as (env & Hrun & _). eauto.
  - repeat split.
    + destruct (get_treasury_yield_rates_runs now py_repr http None None log)
        as (env & Hrun & _). eauto.
    + destruct (get_treasury_yield_rates_runs now py_repr http (Some "2024-01-01")
                  None log) as (env & Hrun & _). eauto.
    + destruct (get_treasury_yield_rates_runs now py_repr http None
                  (Some "2024-06-01") log) as (env & Hrun & _). eauto.
    + destruct (get_treasury_yield_rates_runs now py_repr http (Some "2024-01-01")
                  (Some "2024-06-01") log) as (env & Hrun & _). eauto.
  - repeat split.
    + destruct (get_monthly_treasury_statement_runs now py_repr http None None log)
        as (env & Hrun & _). eauto.
    + destruct (get_monthly_treasury_statement_runs now py_repr http
                  (Some "2024-01-01") None log) as (env & Hrun & _). eauto.
    + destruct (get_monthly_treasury_statement_runs now py_repr http None
                  (Some "2024-06-01") log) as (env & Hrun & _). eauto.
    + destruct (get_monthly_treasury_statement_runs now py_repr http
                  (Some "2024-01-01") (Some "2024-06-01") log)
        as (env & Hrun & _). eauto.
  - repeat split.
    + destruct (get_interest_expense_runs now py_repr http None None log)
        as (env & Hrun & _). eauto.
    + destruct (get_interest_expense_runs now py_repr http (Some "2024-01-01")
                  None log) as (env & Hrun & _). eauto.
    + destruct (get_interest_expense_runs now py_repr http None
                  (Some "2024-06-01") log) as (env & Hrun & _). eauto.
    + destruct (get_interest_expense_runs now py_repr http (Some "2024-01-01")
                  (Some "2024-06-01") log) as (env & Hrun & _). eauto.
Qed.

(** C5: for a category that occurs in no path of the registry,
    [get_datasets_by_category] returns (it is a total function: nothing is
    raised) the error envelope with empty [data] whose [error] says that no
    datasets were found for that category. *)
Theorem C5_unknown_category now category :
  filter (fun d => PyStr.contains category d) _get_available_datasets = [] ->
  get_datasets_by_category now category
  = Envelope (PList [])
      [ ("source", SOURCE);
        ("last_updated", PStr now);
        ("action", PStr "get_datasets_by_category");
        ("category", PStr category) ]
      (Some ("No datasets found for category: " ++ category)).
Proof.
  intros H. unfold get_datasets_by_category, try_pure. cbv zeta.
  rewrite H. reflexivity.
Qed.

(** C5 at ["nonexistent_category"]. *)
Lemma C5_witness :
  get_datasets_by_category "2024-06-01T12:00:00" "nonexistent_category"
  = Envelope (PList [])
      [ ("source", SOURCE);
        ("last_updated", PStr "2024-06-01T12:00:00");
        ("action", PStr "get_datasets_by_category");
        ("category", PStr "nonexistent_category") ]
      (Some "No datasets found for category: nonexistent_category").
Proof.
  apply (C5_unknown_category "2024-06-01T12:00:00" "nonexistent_category").
  vm_compute. reflexivity.
Defined.

(** C6, as stated, fails: the GET of the yield-rate accessor carries no
    ["fields"] parameter. *)
Lemma C6_counterexample :
  exists env g,
    get_treasury_yield_rates "2024-06-01T12:00:00" (fun _ => "") one_record_remote
      None None [] = (Ok env, [g])
    /\ error env = None
    /\ dict_get "fields" (get_params g) = None.
Proof.
  do 2 eexists. split; [vm_compute; reflexivity|].
  split; reflexivity.
Qed.

(** C6, as amended: each of the four series accessors, whatever the dates,
    issues exactly one GET, with the time-out of 30, against its own fixed
    path, with page size 500, page number 1, the sort order
    ["-record_date"] and the JSON format, and with the date filter when a
    date is given; the debt accessor alone sends a field list,
    ["record_date,tot_pub_debt_out_amt"], the other three send none. *)
Theorem C6_series_accessors now py_repr http start_date end_date log :
  (exists env,
      get_debt_to_penny now py_repr http start_date end_date log
      = (Ok env,
         (log ++ [series_request "v2/accounting/od/debt_to_penny"
                    (Some "record_date,tot_pub_debt_out_amt")
                    start_date end_date])%list))
  /\ (exists env,
         get_treasury_yield_rates now py_repr http start_date end_date log
         = (Ok env,
            (log ++ [series_request "v2/accounting/od/avg_interest_rates"
                       None start_date end_date])%list))
  /\ (exists env,
         get_monthly_treasury_statement now py_repr http start_date end_date log
         = (Ok env,
            (log ++ [series_request "v2/revenue/rc/collections"
                       None start_date end_date])%list))
  /\ (exists env,
         get_interest_expense now py_repr http start_date end_date log
         = (Ok env,
            (log ++ [series_request "v2/debt/ie/ie_bpd"
                       None start_date end_date])%list))
  /\ (forall path fields,
         let g := series_request path fields start_date end_date in
         get_url g = BASE_URL ++ "/" ++ path
         /\ get_timeout g = 30%Z
         /\ dict_get "page[size]" (get_params g) = Some (PInt 500)
         /\ dict_get "page[number]" (get_params g) = Some (PInt 1)
         /\ dict_get "sort" (get_params g) = Some (PStr "-record_date")
         /\ dict_get "format" (get_params g) = Some (PStr "json")
         /\ dict_get "fields" (get_params g)
            = match fields with Some f => Some (PStr f) | None => None end).
Proof.
  split; [|split; [|split; [|split]]].
  - destruct (get_debt_to_penny_runs now py_repr http start_date end_date log)
      as (env & Hrun & _). eauto.
  - destruct (get_treasury_yield_rates_runs now py_repr http start_date end_date log)
      as (env & Hrun & _). eauto.
  - destruct (get_monthly_treasury_statement_runs now py_repr http start_date
                end_date log) as (env & Hrun & _). eauto.
  - destruct (get_interest_expense_runs now py_repr http start_date end_date log)
      as (env & Hrun & _). eauto.
  - intros path fields g. subst g. unfold series_request, series_params.
    destruct fields; destruct (given start_date || given end_date);
      repeat split; reflexivity.
Qed.

End TreasuryClaims.

(** * Facts about test_universal_ckan_api.py *)

Module CkanFacts.
Import Py Ckan.
Local Open Scope string_scope.

(** ** The monad *)

Section Combinators.
Context {A B : Type} (P : event -> Prop).

Lemma runs_emits (m : M event A) : runs P m -> emits P m.
Proof.
  intros H log. destruct (H log) as (a & tr & E & F). exists (Ok a), tr. auto.
Qed.

Lemma runs_ret (a : A) : runs P (ret a).
Proof. intros log. exists a, []. rewrite app_nil_r. split; [reflexivity|constructor]. Qed.

Lemma emits_lift (r : res A) : emits P (lift r).
Proof. intros log. exists r, []. rewrite app_nil_r. split; [reflexivity|constructor]. Qed.

Lemma emits_bind (m : M event A) (k : A -> M event B) :
  emits P m -> (forall a, emits P (k a)) -> emits P (bind m k).
Proof.
  intros Hm Hk log. unfold bind.
  destruct (Hm log) as (r & tr & E & F). rewrite E.
  destruct r as [a|e].
  - destruct (Hk a (log ++ tr)%list) as (r' & tr' & E' & F').
    exists r', (tr ++ tr')%list. rewrite E', app_assoc.
    split; [reflexivity|]. apply Forall_app; auto.
  - exists (Raise e), tr. auto.
Qed.

Lemma runs_bind (m : M event A) (k : A -> M event B) :
  runs P m -> (forall a, runs P (k a)) -> runs P (bind m k).
Proof.
  intros Hm Hk log. unfold bind.
  destruct (Hm log) as (a & tr & E & F). rewrite E.
  destruct (Hk a (log ++ tr)%list) as (b & tr' & E' & F').
  exists b, (tr ++ tr')%list. rewrite E', app_assoc.
  split; [reflexivity|]. apply Forall_app; auto.
Qed.

Lemma runs_try (body : M event A) (handler : exn -> M event A) :
  emits P body -> (forall e, runs P (handler e)) -> runs P (try_except body handler).
Proof.
  intros Hb Hh log. unfold try_except.
  destruct (Hb log) as (r & tr & E & F). rewrite E.
  destruct r as [a|e].
  - exists a, tr. auto.
  - destruct (Hh e (log ++ tr)%list) as (a & tr' & E' & F').
    exists a, (tr ++ tr')%list. rewrite E', app_assoc.
    split; [reflexivity|]. apply Forall_app; auto.
Qed.

End Combinators.

Lemma emits_weaken {A} (P Q : event -> Prop) (m : M event A) :
  (forall e, P e -> Q e) -> emits P m -> emits Q m.
Proof.
  intros HPQ H log. destruct (H log) as (r & tr & E & F).
  exists r, tr. split; [exact E|]. eapply Forall_impl; eauto.
Qed.

Lemma runs_weaken {A} (P Q : event -> Prop) (m : M event A) :
  (forall e, P e -> Q e) -> runs P m -> runs Q m.
Proof.
  intros HPQ H log. destruct (H log) as (r & tr & E & F).
  exists r, tr. split; [exact E|]. eapply Forall_impl; eauto.
Qed.

(** ** Dictionaries of outcomes *)

Lemma results_get_set k k' v d :
  results_get k (results_set k' v d)
  = if String.eqb k k' then Some v else results_get k d.
Proof.
  induction d as [|[k0 v0] d IH]; simpl.
  - reflexivity.
  - destruct (String.eqb k' k0) eqn:E0; simpl.
    + apply String.eqb_eq in E0. subst k0.
      destruct (String.eqb k k'); reflexivity.
    + rewrite IH. destruct (String.eqb k k0) eqn:E1; [|reflexivity].
      apply String.eqb_eq in E1. subst k0.
      destruct (String.eqb k k') eqn:E2; [|reflexivity].
      apply String.eqb_eq in E2. subst k'. rewrite String.eqb_refl in E0.
      discriminate.
Qed.

Lemma results_set_keys k v d x :
  In x (map fst (results_set k v d)) <-> x = k \/ In x (map fst d).
Proof.
  induction d as [|[k0 v0] d IH]; simpl.
  - intuition.
  - destruct (String.eqb k k0) eqn:E0; simpl.
    + apply String.eqb_eq in E0. subst k0. intuition.
    + rewrite IH. intuition.
Qed.

Lemma results_set_nodup k v d :
  NoDup (map fst d) -> NoDup (map fst (results_set k v d)).
Proof.
  induction d as [|[k0 v0] d IH]; simpl; intros H.
  - constructor; [intros []|constructor].
  - inversion H as [|? ? Hn Hd]; subst.
    destruct (String.eqb k k0) eqn:E0; simpl.
    + apply String.eqb_eq in E0. subst k0. constructor; assumption.
    + constructor; [|auto].
      intros Hin. apply results_set_keys in Hin. destruct Hin as [->|Hin].
      * rewrite String.eqb_refl in E0. discriminate.
      * contradiction.
Qed.

Lemma results_set_nonempty k v d : results_set k v d <> [].
Proof. destruct d as [|[k0 v0] d]; simpl; [|destruct (String.eqb k k0)]; discriminate. Qed.



Lemma for_countries_ok (P : event -> Prop) body cs :
  (forall country, In country cs -> runs P (body country)) ->
  forall acc, loop_ok P cs acc (for_countries body cs acc).
Proof.
  induction cs as [|c cs IH]; intros Hb acc log; simpl.
  - exists acc, []. rewrite app_nil_r. split; [reflexivity|].
    split; [constructor|]. split; [intros k; simpl; tauto|].
    split; [auto|]. intros [H|H]; [exact H|congruence].
  - unfold bind. destruct (Hb c (or_introl eq_refl) log) as (b & tr & E & F).
    rewrite E.
    destruct (IH (fun k Hk => Hb k (or_intror Hk)) (results_set c b acc)
                 (log ++ tr)%list) as (r & tr' & E' & F' & Hk & Hn & He).
    exists r, (tr ++ tr')%list. rewrite E', app_assoc.
    split; [reflexivity|]. split; [apply Forall_app; auto|].
    split; [|split].
    + intros k. rewrite Hk, results_set_keys. simpl. intuition.
    + intros Hnd. apply Hn. apply results_set_nodup. exact Hnd.
    + intros _. apply He. left. apply results_set_nonempty.
Qed.

Section Harness.
Variable api : list event -> api_call -> res pyval.

Lemma emits_invoke (P : event -> Prop) c : P (Call c) -> emits P (invoke api c).
Proof.
  intros H log. exists (api log c), [Call c]. split; [reflexivity|].
  constructor; [exact H|constructor].
Qed.

Ltac emits_step :=
  first
    [ apply runs_emits; apply runs_ret
    | apply emits_lift
    | apply emits_invoke
    | apply emits_bind; [|intros ?]
    | match goal with
      | |- emits _ (if ?b then _ else _) => destruct b
      | |- emits _ (match ?x with _ => _ end) => destruct x
      end ].

Ltac runs_step :=
  first
    [ apply runs_ret
    | apply runs_try; [|intros ?]
    | apply runs_bind; [|intros ?]
    | match goal with
      | |- runs _ (if ?b then _ else _) => destruct b
      | |- runs _ (match ?x with _ => _ end) => destruct x
      end ].

(** [test_function] never raises and makes exactly the call it is given. *)
Lemma test_function_runs c log :
  exists b, test_function api c log = (Ok b, (log ++ [Call c])%list).
Proof.
  unfold test_function, try_except, bind, invoke, lift, ret.
  destruct (api log c) as [result|e]; [|eauto].
  repeat match goal with
         | |- context [match ?r with Ok _ => _ | Raise _ => _ end] =>
             destruct r; [|eauto]
         | |- context [if ?b then _ else _] => destruct b; [eauto|]
         end; eauto.
Qed.

Lemma runs_test_function (P : event -> Prop) c :
  P (Call c) -> runs P (test_function api c).
Proof.
  intros H log. destruct (test_function_runs c log) as (b & E).
  exists b, [Call c]. split; [exact E|]. constructor; [exact H|constructor].
Qed.

Lemma about_call country cs c :
  call_country c = Some country -> In country cs -> about cs (Call c).
Proof. intros H1 H2. exists country. auto. Qed.

Lemma organization_body_runs cs country :
  In country cs -> runs (about cs) (organization_body api country).
Proof.
  intros Hin. unfold organization_body.
  repeat first
    [ apply runs_test_function; eapply about_call; [reflexivity|exact Hin]
    | runs_step
    | apply emits_invoke; eapply about_call; [reflexivity|exact Hin]
    | apply runs_emits; apply runs_test_function; eapply about_call;
      [reflexivity|exact Hin]
    | emits_step ].
Qed.

Lemma dataset_body_runs cs country :
  In country cs -> runs (about cs) (dataset_body api country).
Proof.
  intros Hin. unfold dataset_body.
  repeat first
    [ apply runs_test_function; eapply about_call; [reflexivity|exact Hin]
    | runs_step
    | apply emits_invoke; eapply about_call; [reflexivity|exact Hin]
    | apply runs_emits; apply runs_test_function; eapply about_call;
      [reflexivity|exact Hin]
    | emits_step ].
Qed.

Lemma resource_body_runs cs country :
  In country cs -> runs (about cs) (resource_body api country).
Proof.
  intros Hin. unfold resource_body.
  repeat first
    [ apply runs_test_function; eapply about_call; [reflexivity|exact Hin]
    | runs_step
    | apply emits_invoke; eapply about_call; [reflexivity|exact Hin]
    | apply runs_emits; apply runs_test_function; eapply about_call;
      [reflexivity|exact Hin]
    | emits_step ].
Qed.

Lemma about_is_call cs e : about cs e -> is_call e.
Proof. destruct e; simpl; [intros []|trivial]. Qed.

Lemma firstn_incl {X} n (l : list X) x : In x (firstn n l) -> In x l.
Proof.
  revert l. induction n as [|n IH]; intros [|y l]; simpl; try tauto.
  intros [H|H]; [left; exact H|right; apply IH; exact H].
Qed.

Lemma firstn_nonempty {X} n (l : list X) : l <> [] -> firstn (S n) l <> [].
Proof. destruct l; [congruence|simpl; discriminate]. Qed.

(** One group of tests: its header, then calls to the portals it was given
    only, and outcomes for those portals only. *)
Lemma group_ok header body test_countries cs log :
  (forall country, In country cs -> runs (about cs) (body country)) ->
  (forall k, In k test_countries -> In k cs) ->
  exists r tr,
    bind (print_header header) (fun _ => for_countries body test_countries []) log
    = (Ok r, (log ++ Header header :: tr)%list)
    /\ Forall (about cs) tr
    /\ (forall k, In k (map fst r) -> In k cs)
    /\ NoDup (map fst r)
    /\ (test_countries <> [] -> r <> []).
Proof.
  intros Hb Hsub. unfold bind, print_header.
  destruct (for_countries_ok (about cs) body test_countries
              (fun k Hk => Hb k (Hsub k Hk)) [] (log ++ [Header header])%list)
    as (r & tr & E & F & Hk & Hn & He).
  exists r, tr. rewrite E, <- app_assoc. simpl.
  split; [reflexivity|]. split; [exact F|].
  split; [|split].
  - intros k Hin. apply Hk in Hin. destruct Hin as [[]|Hin]. auto.
  - apply Hn. constructor.
  - intros H. apply He. right. exact H.
Qed.

Lemma test_organization_functions_ok cs fast_mode log :
  exists r tr,
    test_organization_functions api cs fast_mode log
    = (Ok r, (log ++ Header "Testing Organization Functions" :: tr)%list)
    /\ Forall (about cs) tr
    /\ (forall k, In k (map fst r) -> In k cs)
    /\ NoDup (map fst r)
    /\ (cs <> [] -> r <> []).
Proof.
  unfold test_organization_functions.
  destruct (group_ok "Testing Organization Functions" (organization_body api)
              (if fast_mode then firstn 2 cs else cs) cs log)
    as (r & tr & E & F & Hk & Hn & He).
  - intros country Hin. apply organization_body_runs. exact Hin.
  - destruct fast_mode; [apply firstn_incl|auto].
  - exists r, tr. repeat split; auto.
    intros H. apply He. destruct fast_mode; [apply firstn_nonempty|]; exact H.
Qed.

Lemma test_dataset_functions_ok cs fast_mode log :
  exists r tr,
    test_dataset_functions api cs fast_mode log
    = (Ok r, (log ++ Header "Testing Dataset Functions" :: tr)%list)
    /\ Forall (about cs) tr
    /\ (forall k, In k (map fst r) -> In k cs)
    /\ NoDup (map fst r)
    /\ (cs <> [] -> r <> []).
Proof.
  unfold test_dataset_functions.
  destruct (group_ok "Testing Dataset Functions" (dataset_body api)
              (if fast_mode then firstn 2 cs else cs) cs log)
    as (r & tr & E & F & Hk & Hn & He).
  - intros country Hin. apply dataset_body_runs. exact Hin.
  - destruct fast_mode; [apply firstn_incl|auto].
  - exists r, tr. repeat split; auto.
    intros H. apply He. destruct fast_mode; [apply firstn_nonempty|]; exact H.
Qed.

Lemma test_resource_functions_ok cs fast_mode log :
  exists r tr,
    test_resource_functions api cs fast_mode log
    = (Ok r, (log ++ Header "Testing Resource Functions" :: tr)%list)
    /\ Forall (about cs) tr
    /\ (forall k, In k (map fst r) -> In k cs)
    /\ NoDup (map fst r)
    /\ (cs <> [] -> r <> []).
Proof.
  unfold test_resource_functions.
  destruct (group_ok "Testing Resource Functions" (resource_body api)
              (if fast_mode then firstn 1 cs else cs) cs log)
    as (r & tr & E & F & Hk & Hn & He).
  - intros country Hin. apply resource_body_runs. exact Hin.
  - destruct fast_mode; [apply firstn_incl|auto].
  - exists r, tr. repeat split; auto.
    intros H. apply He. destruct fast_mode; [apply firstn_nonempty|]; exact H.
Qed.

Lemma test_portal_connections_ok countries fast_mode log :
  exists r tr,
    test_portal_connections api countries fast_mode log
    = (Ok r, (log ++ Header "Testing Portal Connections" :: tr)%list)
    /\ Forall is_call tr
    /\ NoDup (map fst r)
    /\ (forall k, In k (map fst r)
                  <-> In k (if fast_mode then ["us"; "uk"; "au"] else countries)).
Proof.
  unfold test_portal_connections, bind, print_header.
  destruct (for_countries_ok is_call
              (fun country => test_function api (test_portal_connection country))
              (if fast_mode then ["us"; "uk"; "au"] else countries)
              (fun k _ => runs_test_function is_call (test_portal_connection k) I)
              [] (log ++ [Header "Testing Portal Connections"])%list)
    as (r & tr & E & F & Hk & Hn & He).
  exists r, tr. rewrite E, <- app_assoc. simpl.
  split; [reflexivity|]. split; [exact F|]. split; [apply Hn; constructor|].
  intros k. rewrite Hk. simpl. tauto.
Qed.

Lemma test_integrated_workflow_ok countries log :
  exists b tr,
    test_integrated_workflow api countries log
    = (Ok b, (log ++ Header "Testing Integrated Workflow" :: tr)%list)
    /\ Forall is_call tr.
Proof.
  unfold test_integrated_workflow. unfold bind at 1. unfold print_header.
  match goal with
  | |- context [try_except ?body ?h _] =>
      assert (H : runs is_call (try_except body h))
  end.
  { apply runs_try; [|intros ?; apply runs_ret].
    repeat first [ apply emits_invoke; exact I | emits_step ]. }
  destruct (H (log ++ [Header "Testing Integrated Workflow"])%list)
    as (b & tr & E & F).
  exists b, tr. rewrite E, <- app_assoc. simpl. auto.
Qed.


(** ** Traces and their headers *)





Lemma success_rate_ok d : d <> [] -> exists f, success_rate d = Ok f.
Proof.
  intros H. unfold success_rate, py_truediv, attempts.
  destruct d; [congruence|]. simpl. eauto.
Qed.


(** ** [run_all_tests] *)



Lemma attempts_bound d l :
  NoDup (map fst d) -> (forall k, In k (map fst d) -> In k l) ->
  (attempts d <= List.length l)%nat.
Proof.
  intros Hn Hk. unfold attempts. rewrite <- (length_map fst d).
  apply NoDup_incl_length; assumption.
Qed.


End Harness.
End CkanFacts.

(** * The claims about test_universal_ckan_api.py *)

Module CkanClaims.
Import Py Ckan CkanFacts CkanRun.
Local Open Scope string_scope.













Ltac workflow_step :=
  match goal with
  | H : unreadable _ |- _ => destruct H as (? & ?)
  | H : breaks ?a |- _ =>
      unfold breaks in H;
      match type of H with
      | match ?a with Ok _ => _ | Raise _ => _ end =>
          destruct a as [?r|?e] eqn:?;
          [ match type of H with
            | match ?g with Ok _ => _ | Raise _ => _ end =>
                destruct g as [?v|?x] eqn:?; [destruct H as (? & ? & ?)|]
            end
          | ]
      end
  | H : ?x = _ |- context [?x] => rewrite H
  | H : failed ?r |- _ => destruct H as (? & ? & ?)
  | H : no_error ?r |- _ => destruct H as (? & ? & ?)
  | H : payload _ _ |- _ => unfold payload in H
  | H : org_name_of _ = _ |- _ =>
      unfold org_name_of in H;
      match type of H with
      | match ?g with Ok _ => _ | Raise _ => _ end = _ =>
          destruct g eqn:?; try discriminate
      end
  end.

Ltac workflow := repeat (repeat workflow_step; simpl); try reflexivity.

(** C7, as stated, fails: the lookup of the organization is inside the
    [try] of the workflow, so when it raises, when it answers without an
    error and without a title, or when the dataset holds [None] for its
    organization, the workflow returns false although the search, the
    details and the resources all succeeded. *)
Lemma C7_counterexample :
  test_integrated_workflow raising_org_api [] []
  = (Ok false,
     [ Header "Testing Integrated Workflow";
       Call (search_datasets "us" "climate" 3);
       Call (get_dataset_details "us" (PStr "climate-data"));
       Call (get_dataset_resources "us" (PStr "climate-data"));
       Call (get_organization_details "us" (PStr "noaa")) ])
  /\ test_integrated_workflow untitled_org_api [] []
     = (Ok false,
        [ Header "Testing Integrated Workflow";
          Call (search_datasets "us" "climate" 3);
          Call (get_dataset_details "us" (PStr "climate-data"));
          Call (get_dataset_resources "us" (PStr "climate-data"));
          Call (get_organization_details "us" (PStr "noaa")) ])
  /\ test_integrated_workflow null_org_api [] []
     = (Ok false,
        [ Header "Testing Integrated Workflow";
          Call (search_datasets "us" "climate" 3);
          Call (get_dataset_details "us" (PStr "climate-data"));
          Call (get_dataset_resources "us" (PStr "climate-data")) ]).
Proof. repeat split; vm_compute; reflexivity. Qed.

(** C7, as amended: the integrated workflow, for the portal ["us"].  A step
    fails when its call raises, when its answer cannot be read, or when it
    carries an error.  When the search fails, or answers without datasets, or
    with something that is not a list of named datasets, the workflow
    returns false having made no other call.  When it answers with at least
    one dataset, the workflow asks for the details of the first one, then
    for its resources, then for the details of its organization; a failure
    of the details or of the resources (or a record without a title, or
    resources without a length) makes it return false at once, without the
    calls that would follow.  In the organization step, an answer that
    carries an error does not fail the workflow: it returns true, as it does
    when the organization is found or when the dataset names none; but a
    lookup that raises or whose answer cannot be read, or an organization
    entry of the dataset that is not a mapping, makes it return false. *)
Theorem C7_integrated_workflow api countries log :
  let run := test_integrated_workflow api countries log in
  let l0 := (log ++ [Header "Testing Integrated Workflow"])%list in
  let search := search_datasets "us" "climate" 3 in
  let l1 := (l0 ++ [Call search])%list in
  (breaks (api l0 search) -> run = (Ok false, l1))
  /\ (forall r, api l0 search = Ok r -> failed r -> run = (Ok false, l1))
  /\ (forall r d, api l0 search = Ok r -> no_error r -> payload r d ->
        truthy d = false -> run = (Ok false, l1))
  /\ (forall r d, api l0 search = Ok r -> no_error r -> payload r d ->
        truthy d = true ->
        unreadable (py_len d) \/ unreadable (py_first d)
        \/ (exists first, py_first d = Ok first
                          /\ unreadable (py_getitem first "name")) ->
        run = (Ok false, l1))
  /\ (forall r first rest name,
        api l0 search = Ok r -> no_error r -> payload r (PList (first :: rest)) ->
        py_getitem first "name" = Ok name ->
        let details := get_dataset_details "us" name in
        let l2 := (l1 ++ [Call details])%list in
        (breaks (api l1 details) -> run = (Ok false, l2))
        /\ (forall r2, api l1 details = Ok r2 -> failed r2 -> run = (Ok false, l2))
        /\ (forall r2 dd,
              api l1 details = Ok r2 -> no_error r2 -> payload r2 dd ->
              unreadable (py_getitem dd "title") -> run = (Ok false, l2))
        /\ (forall r2 dd title,
              api l1 details = Ok r2 -> no_error r2 -> payload r2 dd ->
              py_getitem dd "title" = Ok title ->
              let resources := get_dataset_resources "us" name in
              let l3 := (l2 ++ [Call resources])%list in
              (breaks (api l2 resources) -> run = (Ok false, l3))
              /\ (forall r3, api l2 resources = Ok r3 -> failed r3 ->
                             run = (Ok false, l3))
              /\ (forall r3 rs,
                    api l2 resources = Ok r3 -> no_error r3 -> payload r3 rs ->
                    unreadable (py_len rs) -> run = (Ok false, l3))
              /\ (forall r3 rs n,
                    api l2 resources = Ok r3 -> no_error r3 -> payload r3 rs ->
                    py_len rs = Ok n ->
                    (unreadable (org_name_of dd) -> run = (Ok false, l3))
                    /\ (forall org_name,
                          org_name_of dd = Ok org_name -> truthy org_name = false ->
                          run = (Ok true, l3))
                    /\ (forall org_name,
                          org_name_of dd = Ok org_name -> truthy org_name = true ->
                          let org := get_organization_details "us" org_name in
                          let l4 := (l3 ++ [Call org])%list in
                          (breaks (api l3 org) -> run = (Ok false, l4))
                          /\ (forall r4, api l3 org = Ok r4 -> failed r4 ->
                                         run = (Ok true, l4))
                          /\ (forall r4 od,
                                api l3 org = Ok r4 -> no_error r4 ->
                                payload r4 od ->
                                unreadable (py_getitem od "title") ->
                                run = (Ok false, l4))
                          /\ (forall r4 od t,
                                api l3 org = Ok r4 -> no_error r4 ->
                                payload r4 od -> py_getitem od "title" = Ok t ->
                                run = (Ok true, l4)))))).
Proof.
  cbv zeta.
  unfold test_integrated_workflow, bind, print_header, try_except, invoke, lift, ret.
  split; [|split; [|split; [|split]]].
  - intros. workflow.
  - intros. workflow.
  - intros. workflow.
  - intros r d Ha Hn Hp Ht [H|[H|(first & Hf & H)]]; workflow.
    all: destruct (py_len d); workflow.
  - intros r first rest name Ha Hn Hp Hname.
    split; [|split; [|split]].
    + intros. workflow.
    + intros. workflow.
    + intros. workflow.
    + intros r2 dd title Hr2 Hn2 Hp2 Ht.
      split; [|split; [|split]].
      * intros. workflow.
      * intros. workflow.
      * intros. workflow.
      * intros r3 rs n Hr3 Hn3 Hp3 Hl.
        split; [|split].
        { intros. workflow. }
        { intros. workflow. }
        intros org_name Ho Htr.
        split; [|split; [|split]].
        { intros. workflow. }
        { intros. workflow. }
        { intros. workflow. }
        { intros. workflow. }
Qed.

(** The workflow against [sample_api], where every step answers but the
    organization lookup reports an error: four calls, and true. *)
Lemma C7_witness :
  test_integrated_workflow sample_api [] []
  = (Ok true,
     [ Header "Testing Integrated Workflow";
       Call (search_datasets "us" "climate" 3);
       Call (get_dataset_details "us" (PStr "climate-data"));
       Call (get_dataset_resources "us" (PStr "climate-data"));
       Call (get_organization_details "us" (PStr "noaa")) ]).
Proof.
  pose proof (C7_integrated_workflow sample_api [] []) as H. cbv zeta in H.
  destruct H as (_ & _ & _ & _ & H).
  specialize (H _ (PDict [("name", PStr "climate-data")]) [] (PStr "climate-data")
                eq_refl).
  destruct H as (_ & _ & _ & H).
  - exists PNone. split; reflexivity.
  - reflexivity.
  - reflexivity.
  - specialize (H _ (PDict [ ("title", PStr "Climate data");
                             ("organization", PDict [("name", PStr "noaa")]) ])
                  (PStr "Climate data") eq_refl).
    destruct H as (_ & _ & _ & H).
    + exists PNone. split; reflexivity.
    + reflexivity.
    + reflexivity.
    + specialize (H _ (PList [PDict [("id", PStr "r1")]]) 1%nat eq_refl).
      destruct H as (_ & _ & H).
      * exists PNone. split; reflexivity.
      * reflexivity.
      * reflexivity.
      * specialize (H (PStr "noaa") eq_refl eq_refl).
        destruct H as (_ & H & _).
        apply (H (error_answer "Organization not found") eq_refl).
        exists (PStr "Organization not found"). split; reflexivity.
Defined.


End CkanClaims.

(** * Further properties of us_treasury_fiscaldata_api.py *)

Module TreasuryExtras.
Import Py Treasury TreasuryFacts TreasuryCli.
Local Open Scope string_scope.

(** ** Dictionaries: lookup after assignment *)

Lemma dict_get_set k k' v d :
  dict_get k (dict_set k' v d)
  = if String.eqb k k' then Some v else dict_get k d.
Proof.
  induction d as [|[k0 v0] d IH]; simpl.
  - reflexivity.
  - destruct (String.eqb k' k0) eqn:E0; simpl.
    + apply String.eqb_eq in E0. subst k0.
      destruct (String.eqb k k'); reflexivity.
    + rewrite IH. destruct (String.eqb k k0) eqn:E1; [|reflexivity].
      apply String.eqb_eq in E1. subst k0.
      destruct (String.eqb k k') eqn:E2; [|reflexivity].
      apply String.eqb_eq in E2. subst k'. rewrite String.eqb_refl in E0.
      discriminate.
Qed.

Lemma eqb_false_of_neq (a b : string) : a <> b -> String.eqb a b = false.
Proof. intros H. apply String.eqb_neq. exact H. Qed.

Section Executor.
Variable now : string.
Variable py_repr : pyval -> string.
Variable http : list http_get -> http_get -> http_outcome.

(** X1: whatever parameters the caller gives, [_make_request] issues one GET,
    to the base URL followed by the endpoint, with the time-out of 30; the
    GET carries [format=json] (also over a format of the caller), the
    caller's [page[size]] or else 100, and every other parameter of the
    caller unchanged; and the metadata echo the parameters as sent. *)
Theorem request_parameters endpoint params log :
  exists env g,
    _make_request now py_repr http endpoint params log
    = (Ok env, (log ++ [g])%list)
    /\ get_url g = BASE_URL ++ "/" ++ endpoint
    /\ get_timeout g = 30%Z
    /\ dict_get "format" (get_params g) = Some (PStr "json")
    /\ dict_get "page[size]" (get_params g)
       = Some (match dict_get "page[size]"
                       (match params with Some p => p | None => [] end) with
               | Some v => v
               | None => PInt 100
               end)
    /\ (forall k, k <> "format" -> k <> "page[size]" ->
                  dict_get k (get_params g)
                  = dict_get k (match params with Some p => p | None => [] end))
    /\ dict_get "params" (metadata env) = Some (PDict (get_params g)).
Proof.
  destruct (_make_request_runs now py_repr http endpoint params log)
    as (env & (Hrun & _) & _ & Hp).
  exists env, (request_of endpoint params).
  split; [exact Hrun|]. split; [reflexivity|]. split; [reflexivity|].
  unfold request_of. cbn [get_params]. unfold prepare_params.
  set (p := match params with Some p => p | None => [] end).
  split; [rewrite dict_get_set; reflexivity|].
  split; [|split; [|exact Hp]].
  - rewrite dict_get_set. cbn [String.eqb Ascii.eqb Bool.eqb].
    unfold dict_has. destruct (dict_get "page[size]" p) eqn:E; cbn [negb].
    + exact E.
    + rewrite dict_get_set, String.eqb_refl. reflexivity.
  - intros k Hf Hs. rewrite dict_get_set, (eqb_false_of_neq _ _ Hf).
    unfold dict_has. destruct (dict_get "page[size]" p); cbn [negb].
    + reflexivity.
    + rewrite dict_get_set, (eqb_false_of_neq _ _ Hs). reflexivity.
Qed.

Ltac run_request :=
  unfold _make_request, try_except, _make_request_try, bind, requests_get,
    request_of, raise_for_status, response_json, throw, ret, lift in *.

(** X2: the classes of failure of [_make_request] and their precedence.  A
    time-out and a connection error give their fixed messages; a status from
    400 to 599 gives ["HTTP Error: <status> - <reason>"] whatever the body;
    otherwise a body that does not decode gives the invalid-JSON message, a
    dictionary with an ["error"] key gives ["API Error: "] and that error,
    whatever else the body holds; and any other exception of the GET gives
    ["Unexpected error: "] and its text.  Each time [data] is the empty
    list. *)
Theorem request_failures endpoint params log :
  let g := request_of endpoint params in
  let failure msg :=
    (Ok (request_error now endpoint (prepare_params params) msg),
     (log ++ [g])%list) in
  let run := _make_request now py_repr http endpoint params log in
  (http log g = GetRaises Timeout ->
   run = failure "Request timeout. API is taking too long to respond.")
  /\ (http log g = GetRaises ConnectionError ->
      run = failure "Connection error. Unable to connect to API.")
  /\ (forall cls msg, http log g = GetRaises (PyError cls msg) ->
      run = failure ("Unexpected error: " ++ msg))
  /\ (forall st rs body,
        http log g = GetReturns st rs body -> is_http_error st = true ->
        run = failure ("HTTP Error: " ++ str_of_Z st ++ " - " ++ rs))
  /\ (forall st rs,
        http log g = GetReturns st rs None -> is_http_error st = false ->
        run = failure "Invalid JSON response from API")
  /\ (forall st rs d v,
        http log g = GetReturns st rs (Some (PDict d)) ->
        is_http_error st = false -> dict_get "error" d = Some v ->
        run = failure ("API Error: " ++ py_str py_repr v)).
Proof.
  cbv zeta. unfold is_http_error.
  repeat split; intros; run_request;
    repeat match goal with
           | H : http _ _ = _ |- _ => rewrite H; clear H
           | H : (_ && _)%bool = _ |- _ => rewrite H; clear H
           end; try reflexivity.
  unfold py_in, py_getitem, dict_has. rewrite H1. reflexivity.
Qed.

Ltac reject :=
  split; [discriminate|];
  let st' := fresh "st" in let rs' := fresh "rs" in let b' := fresh "b" in
  let Heq := fresh "Heq" in let Hs := fresh "Hs" in let d' := fresh "d" in
  let Hb := fresh "Hb" in
  intros (st' & rs' & b' & Heq & Hs & (d' & Hb & Hne & Hdata & Hmeta));
  inversion Heq; subst;
  repeat match goal with
         | H : PDict _ = PDict _ |- _ => injection H as H; subst
         end;
  try discriminate; try congruence.

(** X3: [_make_request] returns without an error exactly when the status is
    not from 400 to 599 and the body decodes to a dictionary that has no
    ["error"] key, whose ["data"], if present, has a length (a list, a text
    or a dictionary), and whose ["meta"], if present, is a dictionary: a body
    that is a list, [{"data": null}] or [{"data": [], "meta": null}] all give
    an error envelope. *)
Theorem request_succeeds_iff endpoint params log :
  exists env,
    _make_request now py_repr http endpoint params log
    = (Ok env, (log ++ [request_of endpoint params])%list)
    /\ (error env = None
        <-> exists st rs body,
              http log (request_of endpoint params) = GetReturns st rs (Some body)
              /\ is_http_error st = false
              /\ acceptable body).
Proof.
  destruct (_make_request_runs now py_repr http endpoint params log)
    as (env & (Hrun & _) & _).
  exists env. split; [exact Hrun|].
  revert Hrun. run_request. unfold is_http_error, acceptable.
  set (g := HttpGet _ _ TIMEOUT).
  destruct (http log g) as [e|st rs body] eqn:Hh.
  { destruct e; intros H; injection H as <-; simpl;
      (split; [discriminate|intros (? & ? & ? & ? & _); discriminate]). }
  destruct ((400 <=? st)%Z && (st <? 600)%Z) eqn:Hst.
  { intros H; injection H as <-; simpl. reject. }
  destruct body as [v|].
  2:{ intros H; injection H as <-; simpl. reject. }
  destruct v as [| | | | |l|d];
    try (unfold py_in; intros H; injection H as <-; simpl; reject).
  - (* a text *)
    unfold py_in, py_getitem, py_get.
    destruct (PyStr.contains "error" s);
      intros H; injection H as <-; simpl; reject.
  - (* a list *)
    unfold py_in, py_getitem, py_get.
    destruct (existsb (is_str "error") l);
      intros H; injection H as <-; simpl; reject.
  - (* a dictionary *)
    unfold py_in, py_getitem, dict_has.
    destruct (dict_get "error" d) as [ev|] eqn:He.
    { intros H; injection H as <-; simpl. reject.
      unfold dict_has in *. rewrite He in *. discriminate. }
    destruct (py_get (PDict d) "data" (PList [])) as [records|e] eqn:Hd.
    2:{ unfold py_get in Hd. destruct (dict_get "data" d); discriminate. }
    destruct (py_len records) as [n|e] eqn:Hl.
    2:{ destruct e; intros H; injection H as <-; simpl; reject;
        destruct Hdata as (r' & n' & Hr & Hn); rewrite Hd in Hr; congruence. }
    destruct (py_get (PDict d) "meta" (PDict [])) as [meta|e] eqn:Hm.
    2:{ unfold py_get in Hm. destruct (dict_get "meta" d); discriminate. }
    destruct meta as [| | | | | |m];
      try (unfold py_get at 1; intros H; injection H as <-; simpl; reject;
           destruct Hmeta as (m' & Hm' & Hdict); rewrite Hm in Hm';
           injection Hm' as <-; discriminate).
    unfold py_get at 1 2 3 4.
    repeat match goal with
           | |- context [match dict_get ?k m with _ => _ end] =>
               destruct (dict_get k m)
           end;
      (intros H; injection H as <-; simpl;
       split; [intros _|reflexivity];
       exists st, rs, (PDict d); split; [reflexivity|]; split; [exact Hst|];
       exists d; split; [reflexivity|];
       split; [unfold dict_has; rewrite He; reflexivity|];
       split; [exists records, n; auto | exists (PDict m); auto]).
Qed.

(** X4: the metadata of a successful [_make_request].  [data] is what the
    body holds under ["data"]; [count] is its length; [total_count] and the
    three entries of [page_info] are read from the body's ["meta"], with the
    defaults 0, 1, 100 and 1: the page size reported is the remote's or else
    100, never the one that was requested. *)
Theorem request_success_metadata endpoint params log st rs d :
  http log (request_of endpoint params) = GetReturns st rs (Some (PDict d)) ->
  is_http_error st = false ->
  acceptable (PDict d) ->
  exists n,
    py_len (records_of d) = Ok n
    /\ _make_request now py_repr http endpoint params log
       = (Ok (Envelope (records_of d)
                [ ("source", SOURCE);
                  ("last_updated", PStr now);
                  ("action", PStr endpoint);
                  ("endpoint", PStr endpoint);
                  ("params", PDict (prepare_params params));
                  ("count", PInt (Z.of_nat n));
                  ("total_count", or_default "total-count" (PInt 0) (meta_of d));
                  ("page_info",
                   PDict
                     [ ("page_number", or_default "page-number" (PInt 1) (meta_of d));
                       ("page_size", or_default "page-size" (PInt 100) (meta_of d));
                       ("total_pages", or_default "total-pages" (PInt 1) (meta_of d)) ]) ]
                None),
          (log ++ [request_of endpoint params])%list).
Proof.
  intros Hh Hst (d' & Hb & Hne & (records & n & Hd & Hl) & (meta & Hm & Hdict)).
  injection Hb as <-.
  assert (Hrec : records = records_of d).
  { unfold py_get in Hd. unfold records_of.
    destruct (dict_get "data" d); injection Hd as <-; reflexivity. }
  subst records.
  destruct meta as [| | | | | |m]; try discriminate.
  assert (Hmeta : m = meta_of d).
  { unfold py_get in Hm. unfold meta_of.
    destruct (dict_get "meta" d) as [v|]; injection Hm as Hm; [subst v|subst m];
      reflexivity. }
  exists n. split; [exact Hl|].
  unfold is_http_error in Hst. run_request. rewrite Hh, Hst.
  unfold py_in. rewrite Hne.
  fold (py_get (PDict d) "data" (PList [])). rewrite Hd, Hl, Hm.
  unfold py_get, or_default. rewrite <- Hmeta.
  destruct (dict_get "total-count" m), (dict_get "page-number" m),
    (dict_get "page-size" m), (dict_get "total-pages" m); reflexivity.
Qed.

End Executor.

(** X4 at a remote that answers a request for 500 records a page with two
    records and no ["meta"]: the page size reported is 100. *)
Lemma request_success_metadata_witness :
  exists n,
    py_len (records_of two_records) = Ok n
    /\ _make_request "2024-06-01T12:00:00" (fun _ => "") two_record_remote
         "v2/accounting/od/debt_to_penny" (Some [("page[size]", PInt 500)]) []
       = (Ok (Envelope (records_of two_records)
                [ ("source", SOURCE);
                  ("last_updated", PStr "2024-06-01T12:00:00");
                  ("action", PStr "v2/accounting/od/debt_to_penny");
                  ("endpoint", PStr "v2/accounting/od/debt_to_penny");
                  ("params", PDict (prepare_params (Some [("page[size]", PInt 500)])));
                  ("count", PInt (Z.of_nat n));
                  ("total_count", or_default "total-count" (PInt 0) (meta_of two_records));
                  ("page_info",
                   PDict
                     [ ("page_number", or_default "page-number" (PInt 1) (meta_of two_records));
                       ("page_size", or_default "page-size" (PInt 100) (meta_of two_records));
                       ("total_pages", or_default "total-pages" (PInt 1) (meta_of two_records)) ]) ]
                None),
          ([] ++ [request_of "v2/accounting/od/debt_to_penny"
                    (Some [("page[size]", PInt 500)])])%list).
Proof.
  apply (request_success_metadata "2024-06-01T12:00:00" (fun _ => "")
           two_record_remote "v2/accounting/od/debt_to_penny"
           (Some [("page[size]", PInt 500)]) [] 200%Z "OK" two_records).
  - reflexivity.
  - reflexivity.
  - exists two_records. split; [reflexivity|]. split; [reflexivity|]. split.
    + exists (records_of two_records), 2%nat. split; reflexivity.
    + exists (PDict []). split; reflexivity.
Defined.

Section Accessors.
Variable now : string.
Variable py_repr : pyval -> string.
Variable http : list http_get -> http_get -> http_outcome.

(** X5: [get_dataset_data] issues one GET whose parameters are the page size
    and the page number it was given, then [fields], [filter] and [sort],
    each only when given and not empty, then [format=json]; the default page
    size of [_make_request] never applies.  [get_dataset_summary] asks for
    page 1 with 5 records and nothing else. *)
Theorem dataset_request endpoint fields filter_arg sort page_size page_number log :
  (exists env,
      get_dataset_data now py_repr http endpoint fields filter_arg sort
        page_size page_number log
      = (Ok env,
         (log ++ [HttpGet (BASE_URL ++ "/" ++ endpoint)
                    ([ ("page[size]", PInt page_size);
                       ("page[number]", PInt page_number) ]
                     ++ optional "fields" fields
                     ++ optional "filter" filter_arg
                     ++ optional "sort" sort
                     ++ [ ("format", PStr "json") ])
                    30])%list))
  /\ (exists env,
         get_dataset_summary now py_repr http endpoint log
         = (Ok env,
            (log ++ [HttpGet (BASE_URL ++ "/" ++ endpoint)
                       [ ("page[size]", PInt 5); ("page[number]", PInt 1);
                         ("format", PStr "json") ]
                       30])%list)).
Proof.
  split.
  - destruct (get_dataset_data_runs now py_repr http endpoint fields filter_arg
                sort page_size page_number log) as (env & Hrun & _).
    exists env. rewrite Hrun. f_equal. f_equal. f_equal.
    unfold request_of. f_equal.
    unfold dataset_params, prepare_params, optional.
    destruct (given fields), (given filter_arg), (given sort); reflexivity.
  - destruct (get_dataset_summary_runs now py_repr http endpoint log)
      as (env & Hrun & _).
    exists env. rewrite Hrun. reflexivity.
Qed.

End Accessors.
(** ** Text without white space *)

Lemma starts_with_no_space p s :
  PyStr.starts_with p s = true -> has_space s = false -> has_space p = false.
Proof.
  revert s. induction p as [|a p IH]; intros [|b s]; simpl; try discriminate;
    try reflexivity.
  intros H Hs. apply andb_prop in H. destruct H as [Hab Hp].
  apply Ascii.eqb_eq in Hab. subst b.
  apply orb_false_elim in Hs. destruct Hs as [Ha Hs].
  rewrite Ha. simpl. exact (IH s Hp Hs).
Qed.

Lemma contains_no_space sub s :
  PyStr.contains sub s = true -> has_space s = false -> has_space sub = false.
Proof.
  induction s as [|b s IH]; simpl; intros H Hs.
  - rewrite orb_false_r in H. exact (starts_with_no_space sub "" H eq_refl).
  - apply orb_prop in H. destruct H as [H|H].
    + exact (starts_with_no_space sub (String b s) H Hs).
    + apply orb_false_elim in Hs. destruct Hs as [_ Hs]. exact (IH H Hs).
Qed.

Lemma split_ws_aux_no_space s cur :
  has_space s = false ->
  PyStr.split_ws_aux cur s
  = match (rev (list_ascii_of_string s) ++ cur)%list with
    | [] => []
    | c' => [PyStr.rev_string c']
    end.
Proof.
  revert cur. induction s as [|c s IH]; intros cur Hs; simpl.
  - destruct cur; reflexivity.
  - simpl in Hs. apply orb_false_elim in Hs. destruct Hs as [Hc Hs].
    rewrite Hc, (IH (c :: cur) Hs), <- app_assoc. reflexivity.
Qed.

(** A non-empty text without white space is its own single word. *)
Lemma split_ws_word s :
  has_space s = false -> s <> "" -> PyStr.split_ws s = [s].
Proof.
  intros Hs Hne. unfold PyStr.split_ws. rewrite (split_ws_aux_no_space s [] Hs).
  rewrite app_nil_r.
  destruct (rev (list_ascii_of_string s)) as [|a l] eqn:E.
  - apply (f_equal (@rev ascii)) in E. rewrite rev_involutive in E. simpl in E.
    apply (f_equal string_of_list_ascii) in E.
    rewrite string_of_list_ascii_of_string in E. contradiction.
  - rewrite <- E. unfold PyStr.rev_string.
    rewrite rev_involutive, string_of_list_ascii_of_string. reflexivity.
Qed.

Lemma contains_empty s : PyStr.contains "" s = true.
Proof. destruct s; reflexivity. Qed.

Lemma lower_char_idem c : PyStr.lower_char (PyStr.lower_char c) = PyStr.lower_char c.
Proof. destruct c as [[] [] [] [] [] [] [] []]; reflexivity. Qed.

Lemma lower_idem s : PyStr.lower (PyStr.lower s) = PyStr.lower s.
Proof.
  induction s as [|c s IH]; simpl; [reflexivity|].
  rewrite lower_char_idem, IH. reflexivity.
Qed.

Lemma sort_desc_const {A} (key : A -> Z) k l :
  (forall x, In x l -> key x = k) -> sort_desc key l = l.
Proof.
  induction l as [|x l IH]; intros H; simpl; [reflexivity|].
  rewrite IH by (intros y Hy; apply H; right; exact Hy).
  destruct l as [|y l']; simpl; [reflexivity|].
  rewrite (H x (or_introl eq_refl)), (H y (or_intror (or_introl eq_refl))).
  rewrite Z.ltb_irrefl. reflexivity.
Qed.

(** ** The registry *)

Lemma registry_no_space :
  forallb (fun d => negb (has_space (PyStr.lower d))) _get_available_datasets
  = true.
Proof. vm_compute. reflexivity. Qed.

Lemma registry_own_category :
  forallb (fun d => PyStr.contains (category_of d) d) _get_available_datasets
  = true.
Proof. vm_compute. reflexivity. Qed.

Lemma collected_entry query x :
  In x (collected query) ->
  exists dataset,
    In dataset _get_available_datasets
    /\ PyStr.contains (PyStr.lower query) (PyStr.lower dataset) = true
    /\ x = search_info (PyStr.lower query) dataset.
Proof.
  unfold collected. cbv zeta. intros H.
  apply (proj1 (in_map_iff _ _ _)) in H.
  destruct H as (dataset & <- & H).
  apply (proj1 (filter_In _ _ _)) in H.
  exists dataset. tauto.
Qed.

(** The score of every entry a search returns. *)
Lemma collected_score query x :
  In x (collected query) ->
  match_score x = if PyStr.nonempty (PyStr.lower query) then 1%Z else 0%Z.
Proof.
  intros H. apply collected_entry in H.
  destruct H as (d & Hin & Hc & ->).
  change (match_score (search_info (PyStr.lower query) d))
    with (Z.of_nat (count_tokens (PyStr.lower query) d)).
  unfold count_tokens.
  destruct (PyStr.lower query) as [|c q] eqn:Hq.
  - reflexivity.
  - assert (Hd : has_space (PyStr.lower d) = false).
    { pose proof registry_no_space as Hall.
      rewrite forallb_forall in Hall. specialize (Hall d Hin).
      apply negb_true_iff in Hall. exact Hall. }
    rewrite (split_ws_word (String c q)
               (contains_no_space _ _ Hc Hd)) by discriminate.
    cbn [filter]. rewrite Hc. reflexivity.
Qed.

(** The paths of the entries a search returns. *)
Lemma matching_paths query :
  matching_datasets query = collected query
  /\ map path_of (matching_datasets query)
     = filter (fun dataset =>
                 PyStr.contains (PyStr.lower query) (PyStr.lower dataset))
              _get_available_datasets.
Proof.
  assert (E : matching_datasets query = collected query).
  { unfold matching_datasets.
    exact (sort_desc_const match_score _ (collected query)
             (collected_score query)). }
  split; [exact E|]. rewrite E.
  unfold collected. cbv zeta. rewrite map_map.
  generalize (filter (fun dataset =>
                        PyStr.contains (PyStr.lower query) (PyStr.lower dataset))
                     _get_available_datasets).
  intros l. induction l as [|d l IH]; [reflexivity|].
  cbn [map]. rewrite IH. reflexivity.
Qed.

(** X6: the ranking of [search_datasets] never reorders anything.  Whatever
    the query, every entry returned has the same [match_score] (1, or 0 for
    the empty query), so the entries come in the order of the registry. *)
Theorem search_keeps_registry_order query :
  matching_datasets query = collected query
  /\ (forall x, In x (matching_datasets query) ->
        match_score x = if PyStr.nonempty (PyStr.lower query) then 1%Z else 0%Z)
  /\ map path_of (matching_datasets query)
     = filter (fun dataset =>
                 PyStr.contains (PyStr.lower query) (PyStr.lower dataset))
              _get_available_datasets.
Proof.
  destruct (matching_paths query) as [E P].
  split; [exact E|]. split; [|exact P].
  rewrite E. exact (collected_score query).
Qed.

(** X7: [search_datasets] reads its query through [lower()] only: two
    queries that differ in case alone return the same entries, and both
    succeed. *)
Theorem search_ignores_case now q1 q2 :
  PyStr.lower q1 = PyStr.lower q2 ->
  data (search_datasets now q1) = data (search_datasets now q2)
  /\ data (search_datasets now (PyStr.lower q1)) = data (search_datasets now q1)
  /\ error (search_datasets now q1) = None
  /\ error (search_datasets now q2) = None.
Proof.
  intros H.
  assert (E : forall a b, PyStr.lower a = PyStr.lower b ->
                          matching_datasets a = matching_datasets b).
  { intros a b Hab. unfold matching_datasets, collected. cbv zeta.
    rewrite Hab. reflexivity. }
  unfold search_datasets, try_pure. cbv zeta. cbn [data error].
  rewrite (E q1 q2 H), (E (PyStr.lower q1) q2 (eq_trans (lower_idem q1) H)).
  repeat split.
Qed.

(** X8: a query that occurs in every registry path (the empty query does)
    returns the whole registry, in order, and counts its 28 entries. *)
Theorem search_everything now query :
  (forall dataset, In dataset _get_available_datasets ->
     PyStr.contains (PyStr.lower query) (PyStr.lower dataset) = true) ->
  map path_of (matching_datasets query) = _get_available_datasets
  /\ dict_get "count" (metadata (search_datasets now query)) = Some (PInt 28)
  /\ error (search_datasets now query) = None.
Proof.
  intros H.
  destruct (matching_paths query) as [_ E].
  assert (F : forall l : list string,
             (forall d, In d l ->
                PyStr.contains (PyStr.lower query) (PyStr.lower d) = true) ->
             filter (fun d => PyStr.contains (PyStr.lower query) (PyStr.lower d)) l
             = l).
  { induction l as [|d l IH]; intros Hl; [reflexivity|].
    cbn [filter]. rewrite (Hl d (or_introl eq_refl)).
    rewrite IH by (intros x Hx; apply Hl; right; exact Hx). reflexivity. }
  rewrite (F _ H) in E.
  split; [exact E|].
  unfold search_datasets, try_pure. cbv zeta. cbn [metadata error].
  split; [|reflexivity].
  assert (L : List.length (matching_datasets query) = 28%nat).
  { rewrite <- (length_map path_of), E. reflexivity. }
  rewrite L. reflexivity.
Qed.

(** X9: [get_datasets_by_category] labels every entry with the category it
    was asked for, lists the registry paths that contain that text in the
    order of the registry, and finds each catalogue entry under the
    category the catalogue gives it. *)
Theorem category_entries now category :
  (forall entries,
     data (get_datasets_by_category now category) = PList entries ->
     entries
     = map (fun d => PDict (category_info category d))
           (filter (fun d => PyStr.contains category d) _get_available_datasets))
  /\ (forall dataset, In dataset _get_available_datasets ->
        error (get_datasets_by_category now (category_of dataset)) = None
        /\ exists entries,
             data (get_datasets_by_category now (category_of dataset))
             = PList entries
             /\ In (PDict (category_info (category_of dataset) dataset)) entries).
Proof.
  split.
  - intros entries. unfold get_datasets_by_category, try_pure. cbv zeta.
    destruct (filter (fun d => PyStr.contains category d) _get_available_datasets)
      as [|d l]; cbn [data]; intros H; injection H as <-; reflexivity.
  - intros dataset Hin.
    assert (Hc : PyStr.contains (category_of dataset) dataset = true).
    { pose proof registry_own_category as Hall.
      rewrite forallb_forall in Hall. exact (Hall dataset Hin). }
    assert (Hf : In dataset
                   (filter (fun d => PyStr.contains (category_of dataset) d)
                           _get_available_datasets)).
    { apply filter_In. split; assumption. }
    unfold get_datasets_by_category, try_pure. cbv zeta.
    destruct (filter (fun d => PyStr.contains (category_of dataset) d)
                     _get_available_datasets) as [|d l]; [destruct Hf|].
    cbn [data error]. split; [reflexivity|].
    eexists. split; [reflexivity|].
    apply in_map_iff. exists dataset. split; [reflexivity|exact Hf].
Qed.

(** X7 at ["DEBT"] and ["debt"]. *)
Lemma search_ignores_case_witness :
  data (search_datasets "2024-06-01T12:00:00" "DEBT")
  = data (search_datasets "2024-06-01T12:00:00" "debt")
  /\ data (search_datasets "2024-06-01T12:00:00" (PyStr.lower "DEBT"))
     = data (search_datasets "2024-06-01T12:00:00" "DEBT")
  /\ error (search_datasets "2024-06-01T12:00:00" "DEBT") = None
  /\ error (search_datasets "2024-06-01T12:00:00" "debt") = None.
Proof.
  apply (search_ignores_case "2024-06-01T12:00:00" "DEBT" "debt").
  vm_compute. reflexivity.
Defined.

(** X8 at the empty query. *)
Lemma search_everything_witness :
  map path_of (matching_datasets "") = _get_available_datasets
  /\ dict_get "count" (metadata (search_datasets "2024-06-01T12:00:00" ""))
     = Some (PInt 28)
  /\ error (search_datasets "2024-06-01T12:00:00" "") = None.
Proof.
  apply (search_everything "2024-06-01T12:00:00" "").
  intros dataset _. destruct dataset; reflexivity.
Defined.

Section Commands.
Variable now : string.
Variable py_repr : pyval -> string.
Variable http : list http_get -> http_get -> http_outcome.

Lemma search_datasets_no_error query : error (search_datasets now query) = None.
Proof. unfold search_datasets, try_pure. cbv zeta. reflexivity. Qed.

Lemma accounting_no_error :
  error (get_datasets_by_category now "accounting") = None.
Proof. vm_compute. reflexivity. Qed.

Lemma test_endpoints_tally log :
  exists e2 e3 env,
    let g1 := series_request "v2/accounting/od/debt_to_penny"
                (Some "record_date,tot_pub_debt_out_amt") None None in
    let g2 := series_request "v2/accounting/od/avg_interest_rates" None None None in
    get_debt_to_penny now py_repr http None None log = (Ok e2, (log ++ [g1])%list)
    /\ get_treasury_yield_rates now py_repr http None None (log ++ [g1])%list
       = (Ok e3, ((log ++ [g1]) ++ [g2])%list)
    /\ test_endpoints now py_repr http log = (Ok env, ((log ++ [g1]) ++ [g2])%list)
    /\ error env = None
    /\ dict_get "successful_tests" (metadata env)
       = Some (PInt (Z.of_nat (3 + passed e2 + passed e3)))
    /\ dict_get "failed_tests" (metadata env)
       = Some (PInt (5 - Z.of_nat (3 + passed e2 + passed e3)))
    /\ dict_get "success_rate" (metadata env)
       = Some (PStr (match (passed e2 + passed e3)%nat with
                     | 0%nat => "60.0%"
                     | 1%nat => "80.0%"
                     | _ => "100.0%"
                     end)).
Proof.
  cbv zeta.
  destruct (get_debt_to_penny_runs now py_repr http None None log)
    as (e2 & R2 & Hok2 & _).
  destruct (get_treasury_yield_rates_runs now py_repr http None None
              (log ++ [series_request "v2/accounting/od/debt_to_penny"
                         (Some "record_date,tot_pub_debt_out_amt") None None])%list)
    as (e3 & R3 & Hok3 & _).
  exists e2, e3.
  unfold test_endpoints, try_except, bind.
  destruct (test_record_runs "get_catalogue" (get_catalogue now) log
              (proj1 (get_catalogue_ok now))) as (d1 & -> & S1).
  rewrite R2.
  match goal with
  | |- context [test_record "get_debt_to_penny" e2 ?l] =>
      destruct (test_record_runs "get_debt_to_penny" e2 l Hok2) as (d2 & -> & S2)
  end.
  rewrite R3.
  match goal with
  | |- context [test_record "get_treasury_yield_rates" e3 ?l] =>
      destruct (test_record_runs "get_treasury_yield_rates" e3 l Hok3)
        as (d3 & -> & S3)
  end.
  match goal with
  | |- context [test_record "search_datasets" ?e ?l] =>
      destruct (test_record_runs "search_datasets" e l
                  (proj1 (search_datasets_ok now "debt"))) as (d4 & -> & S4)
  end.
  match goal with
  | |- context [test_record "get_datasets_by_category" ?e ?l] =>
      destruct (test_record_runs "get_datasets_by_category" e l
                  (proj1 (get_datasets_by_category_ok now "accounting")))
        as (d5 & -> & S5)
  end.
  rewrite search_datasets_no_error in S4. rewrite accounting_no_error in S5.
  assert (S1' : is_success (PDict d1) = true) by exact S1.
  cbv beta iota zeta. cbn [filter]. rewrite S1', S2, S3, S4, S5.
  unfold passed.
  destruct (error e2), (error e3); eexists;
    (split; [reflexivity|]); (split; [reflexivity|]);
    (split; [reflexivity|]); (split; [reflexivity|]);
    (split; [reflexivity|]); (split; [reflexivity|]);
    vm_compute; reflexivity.
Qed.

(** X10: [test_endpoints] never raises and never reports an error of its
    own.  It issues the two GETs of [get_debt_to_penny()] and
    [get_treasury_yield_rates()], in that order; its three local checks
    always pass, so the tally is 3 plus the remote accessors that came back
    without an error, and the rate printed is 60.0%, 80.0% or 100.0%. *)
Theorem test_endpoints_summary log :
  exists e2 e3 env,
    let g1 := series_request "v2/accounting/od/debt_to_penny"
                (Some "record_date,tot_pub_debt_out_amt") None None in
    let g2 := series_request "v2/accounting/od/avg_interest_rates" None None None in
    get_debt_to_penny now py_repr http None None log = (Ok e2, (log ++ [g1])%list)
    /\ get_treasury_yield_rates now py_repr http None None (log ++ [g1])%list
       = (Ok e3, (log ++ [g1; g2])%list)
    /\ test_endpoints now py_repr http log = (Ok env, (log ++ [g1; g2])%list)
    /\ error env = None
    /\ dict_get "total_tests" (metadata env) = Some (PInt 5)
    /\ dict_get "successful_tests" (metadata env)
       = Some (PInt (3 + Z.of_nat (passed e2) + Z.of_nat (passed e3)))
    /\ dict_get "failed_tests" (metadata env)
       = Some (PInt (2 - Z.of_nat (passed e2) - Z.of_nat (passed e3)))
    /\ dict_get "success_rate" (metadata env)
       = Some (PStr (match (passed e2 + passed e3)%nat with
                     | 0%nat => "60.0%"
                     | 1%nat => "80.0%"
                     | _ => "100.0%"
                     end)).
Proof.
  destruct (test_endpoints_tally log) as (e2 & e3 & env & H).
  cbv zeta in H. destruct H as (R2 & R3 & R & He & Hs & Hf & Hr).
  destruct (test_endpoints_runs now py_repr http log)
    as (env' & log' & results & R' & _ & _ & _ & _ & Ht & _).
  rewrite R in R'. injection R' as <- _.
  exists e2, e3, env. cbv zeta.
  rewrite <- app_assoc in R3, R. cbn [app] in R3, R.
  split; [exact R2|]. split; [exact R3|]. split; [exact R|].
  split; [exact He|]. split; [exact Ht|].
  split; [|split; [|exact Hr]].
  - rewrite Hs. do 2 f_equal. lia.
  - rewrite Hf. do 2 f_equal. lia.
Qed.

Lemma exit_code_ok env :
  envelope_ok env ->
  exit_code env = match error env with None => 0%Z | Some _ => 1%Z end.
Proof.
  intros (_ & _ & _ & H). unfold exit_code.
  destruct (error env) as [msg|]; [|reflexivity].
  destruct H as [_ Hne]. destruct msg; [contradiction|reflexivity].
Qed.

Lemma run_remote (m : T envelope) log g env :
  runs_with http m log g env ->
  m log = (Ok env, (log ++ [g])%list) /\ envelope_ok env.
Proof. intros (R & Hok & _). split; assumption. Qed.

(** X11: the command line.  Every sub-command returns an envelope (none
    raises); the exit status is 1 exactly when the envelope carries an error
    (no error message is ever empty); [catalogue], [search] and [test] always
    exit with 0; and a sub-command issues no GET, one GET, or, for [test],
    two. *)
Theorem main_exit_status c log :
  exists env log',
    run_command now py_repr http c log = (Ok env, log')
    /\ main now py_repr http (Some c) log
       = (match error env with None => 0%Z | Some _ => 1%Z end, log')
    /\ List.length log' = (List.length log + gets c)%nat
    /\ match c with
       | Catalogue | Search _ | Test => error env = None
       | _ => True
       end.
Proof.
  assert (remote : forall (m : T envelope) g env,
             runs_with http m log g env ->
             run_command now py_repr http c = m -> gets c = 1%nat ->
             match c with
             | Catalogue | Search _ | Test => False
             | _ => True
             end ->
             exists env log',
               run_command now py_repr http c log = (Ok env, log')
               /\ main now py_repr http (Some c) log
                  = (match error env with None => 0%Z | Some _ => 1%Z end, log')
               /\ List.length log' = (List.length log + gets c)%nat
               /\ match c with
                  | Catalogue | Search _ | Test => error env = None
                  | _ => True
                  end).
  { intros m g env Hrun Hc Hg Hk.
    destruct (run_remote m log g env Hrun) as [R Hok].
    exists env, (log ++ [g])%list. unfold main. rewrite Hc, R, Hg.
    rewrite (exit_code_ok env Hok), length_app.
    split; [reflexivity|]. split; [reflexivity|]. split; [reflexivity|].
    destruct c; solve [exact I | destruct Hk]. }
  assert (local : forall env,
             envelope_ok env ->
             run_command now py_repr http c = ret env -> gets c = 0%nat ->
             match c with
             | Catalogue | Search _ | Test => error env = None
             | _ => True
             end ->
             exists env log',
               run_command now py_repr http c log = (Ok env, log')
               /\ main now py_repr http (Some c) log
                  = (match error env with None => 0%Z | Some _ => 1%Z end, log')
               /\ List.length log' = (List.length log + gets c)%nat
               /\ match c with
                  | Catalogue | Search _ | Test => error env = None
                  | _ => True
                  end).
  { intros env Hok Hc Hg Hk. exists env, log. unfold main. rewrite Hc, Hg.
    unfold ret. rewrite (exit_code_ok env Hok), Nat.add_0_r.
    split; [reflexivity|]. split; [reflexivity|]. split; [reflexivity|exact Hk]. }
  destruct c.
  - apply (local (get_catalogue now) (proj1 (get_catalogue_ok now)));
      reflexivity.
  - apply (local (get_datasets_by_category now category)
             (proj1 (get_datasets_by_category_ok now category)));
      [reflexivity|reflexivity|exact I].
  - destruct (get_debt_to_penny_runs now py_repr http start_date end_date log)
      as (env & H).
    exact (remote _ _ env H eq_refl eq_refl I).
  - destruct (get_treasury_yield_rates_runs now py_repr http start_date end_date log)
      as (env & H).
    exact (remote _ _ env H eq_refl eq_refl I).
  - destruct (get_monthly_treasury_statement_runs now py_repr http
                start_date end_date log) as (env & H).
    exact (remote _ _ env H eq_refl eq_refl I).
  - destruct (get_interest_expense_runs now py_repr http start_date end_date log)
      as (env & H).
    exact (remote _ _ env H eq_refl eq_refl I).
  - destruct (get_dataset_data_runs now py_repr http endpoint fields filter_arg
                sort page_size page_number log) as (env & H).
    exact (remote _ _ env H eq_refl eq_refl I).
  - destruct (get_dataset_summary_runs now py_repr http endpoint log) as (env & H).
    exact (remote _ _ env H eq_refl eq_refl I).
  - apply (local (search_datasets now query) (proj1 (search_datasets_ok now query)));
      [reflexivity|reflexivity|exact (search_datasets_no_error query)].
  - destruct (test_endpoints_tally log) as (e2 & e3 & env & H).
    cbv zeta in H. destruct H as (_ & _ & R & He & _).
    exists env. eexists. unfold main, run_command. rewrite R.
    unfold exit_code. rewrite He. cbn [given].
    split; [reflexivity|]. split; [reflexivity|]. split; [|reflexivity].
    rewrite !length_app. cbn [List.length gets]. lia.
Qed.

End Commands.

End TreasuryExtras.

(** * Further facts about test_universal_ckan_api.py *)

Module CkanExtras.
Import Py Ckan CkanFacts CkanRun.
Local Open Scope string_scope.

Section Harness.
Variable api : list event -> api_call -> res pyval.

Ltac rejects :=
  exists false; split; [reflexivity|];
  split; [discriminate|];
  let d := fresh "d" in let e := fresh "e" in let m := fresh "m" in
  let Heq := fresh "Heq" in
  intros (d & e & m & Heq & ?Hdat & ?Herr & ?Htr & ?Hmeta & ?Hall);
  first [ discriminate Heq
        | injection Heq as <-; unfold dict_has in *;
          repeat match goal with
                 | H : dict_get ?k ?d = _, H' : context [dict_get ?k ?d] |- _ =>
                     rewrite H in H'
                 end;
          congruence ].

(** X12: [test_function] makes exactly the call it is given and never
    raises; it returns true exactly when the call returned (it did not
    raise) a dictionary that holds ["data"], a falsy ["error"], and under
    ["metadata"] a dictionary with the four required fields. *)
Theorem test_function_accepts c log :
  exists b,
    test_function api c log = (Ok b, (log ++ [Call c])%list)
    /\ (b = true <-> well_formed (api log c)).
Proof.
  unfold test_function, try_except, bind, invoke, lift, ret.
  destruct (api log c) as [result|e0] eqn:A; [|rejects].
  destruct result as [| | | | | |kvs]; cbn [is_dict negb]; try rejects.
  cbn [py_in py_getitem]. unfold dict_has.
  destruct (dict_get "error" kvs) as [e|] eqn:He; cbn [negb orb]; [|rejects].
  destruct (dict_get "data" kvs) as [dv|] eqn:Hd; cbn [negb orb]; [|rejects].
  destruct (dict_get "metadata" kvs) as [mv|] eqn:Hm; cbn [negb orb]; [|rejects].
  destruct (truthy e) eqn:Ht; [rejects|].
  unfold required_metadata. cbn [missing_field].
  destruct mv as [| | | | s | l | m]; cbn [py_in]; try rejects.
  - repeat match goal with
           | |- context [if PyStr.contains ?k s then _ else _] =>
               destruct (PyStr.contains k s)
           end; cbn [py_get]; rejects.
  - repeat match goal with
           | |- context [if existsb ?f l then _ else _] =>
               destruct (existsb f l)
           end; cbn [py_get]; rejects.
  - assert (Hno : forallb (fun field => dict_has field m) required_metadata = false ->
                  ~ well_formed (Ok (PDict kvs))).
    { intros Hf (d & e' & m' & Heq & _ & _ & _ & Hmeta & Hall).
      injection Heq as <-. rewrite Hm in Hmeta. injection Hmeta as <-.
      rewrite Hall in Hf. discriminate. }
    unfold required_metadata in Hno. cbn [forallb] in Hno.
    destruct (dict_has "source" m) eqn:H1;
      [|exists false; split; [reflexivity|]; split; [discriminate|];
        intros H; destruct (Hno eq_refl H)].
    destruct (dict_has "country" m) eqn:H2;
      [|exists false; split; [reflexivity|]; split; [discriminate|];
        intros H; destruct (Hno eq_refl H)].
    destruct (dict_has "last_updated" m) eqn:H3;
      [|exists false; split; [reflexivity|]; split; [discriminate|];
        intros H; destruct (Hno eq_refl H)].
    destruct (dict_has "count" m) eqn:H4;
      [|exists false; split; [reflexivity|]; split; [discriminate|];
        intros H; destruct (Hno eq_refl H)].
    exists true. split.
    + cbn [py_get]. destruct (dict_get "count" m); reflexivity.
    + split; [intros _|reflexivity].
      exists kvs, e, m. split; [reflexivity|].
      split; [unfold dict_has; rewrite Hd; reflexivity|].
      split; [exact He|]. split; [exact Ht|]. split; [exact Hm|].
      unfold required_metadata. cbn [forallb]. rewrite H1, H2, H3, H4. reflexivity.
Qed.
(** X13: in fast mode the selection of countries is ignored.  A run makes
    the same calls, prints the same headers and leaves the same report
    whatever list it is given, so [main] with [--fast] either rejects the
    country named after [--country] without a call or behaves as if
    [--country] were not there. *)
Theorem fast_mode_ignores_countries argv log :
  member "--fast" argv = true ->
  (forall countries countries',
     run_all_tests api countries true log = run_all_tests api countries' true log)
  /\ (main api argv log = (1%Z, log)
      \/ main api argv log = main api ["--fast"] log).
Proof.
  intros Hfast.
  assert (E : forall countries countries',
             run_all_tests api countries true log
             = run_all_tests api countries' true log).
  { intros countries countries'. reflexivity. }
  split; [exact E|].
  unfold main. rewrite Hfast. cbn [member existsb index_of String.eqb orb].
  change (existsb (String.eqb "--fast") ["--fast"]) with true.
  destruct (index_of "--country" argv) as [i|]; [|right; reflexivity].
  destruct (nth_error argv (S i)) as [a|]; [|right; reflexivity].
  destruct (negb (member (PyStr.lower a) ALL_COUNTRIES)); [left; reflexivity|].
  right. rewrite (E (Some [PyStr.lower a]) None). reflexivity.
Qed.

Lemma keys_nil (d : results) : (forall k, ~ In k (map fst d)) -> d = [].
Proof.
  destruct d as [|[k v] d]; [reflexivity|].
  intros H. destruct (H k). left. reflexivity.
Qed.

(** X14: when [run_all_tests] raises.  The step that tests the supported
    countries is the only one that can pass an exception on; after it the
    run raises only when it was given no portal to test, with the
    [ZeroDivisionError] of the connection rate, and otherwise ends with a
    report. *)
Theorem run_all_tests_raises countries fast_mode log :
  match test_supported_countries api
          (log ++ [Header "Universal CKAN API Wrapper - Test Suite"])%list with
  | (Raise e, log') =>
      run_all_tests api countries fast_mode log = (Raise e, log')
  | (Ok _, _) =>
      match targets countries fast_mode with
      | [] =>
          exists log',
            run_all_tests api countries fast_mode log
            = (Raise (PyError "ZeroDivisionError" "division by zero"), log')
      | _ :: _ =>
          exists rep log',
            run_all_tests api countries fast_mode log = (Ok rep, log')
      end
  end.
Proof.
  destruct (test_supported_countries api
              (log ++ [Header "Universal CKAN API Wrapper - Test Suite"])%list)
    as [[supported|e] l1] eqn:E1.
  2:{ unfold run_all_tests. unfold bind at 1. unfold print_header at 1.
      unfold bind at 1. rewrite E1. reflexivity. }
  destruct (test_portal_connections_ok api
              (match countries with Some l => l | None => ALL_COUNTRIES end)
              fast_mode l1) as (conn & tr2 & E2 & _ & _ & Hkeys).
  change (if fast_mode then ["us"; "uk"; "au"]
          else match countries with Some l => l | None => ALL_COUNTRIES end)
    with (targets countries fast_mode) in Hkeys.
  destruct (targets countries fast_mode) as [|t ts].
  - assert (conn = []) as -> by (apply keys_nil; intros k Hk; apply (proj1 (Hkeys k) Hk)).
    unfold run_all_tests. unfold bind at 1. unfold print_header at 1.
    unfold bind at 1. rewrite E1. unfold bind at 1. rewrite E2.
    eexists. reflexivity.
  - assert (Hc : conn <> []).
    { intros ->. apply (proj2 (Hkeys t)). left. reflexivity. }
    destruct (success_rate_ok conn Hc) as (rate & R).
    unfold run_all_tests. unfold bind at 1. unfold print_header at 1.
    unfold bind at 1. rewrite E1. unfold bind at 1. rewrite E2.
    unfold bind at 1.
    destruct (working conn) as [|w ws] eqn:W.
    + unfold ret at 1. unfold bind at 1. unfold print_header at 1.
      unfold bind at 1. unfold lift at 1. rewrite R.
      unfold bind, ret, print_header. eexists _, _. reflexivity.
    + assert (Hw : w :: ws <> []) by discriminate.
      unfold bind at 1. unfold bind at 1.
      match goal with
      | |- context [test_organization_functions api _ fast_mode ?l] =>
          destruct (test_organization_functions_ok api (w :: ws) fast_mode l)
            as (org & tr3 & E3 & _ & _ & _ & N3)
      end.
      rewrite E3. clear E3. unfold bind at 1.
      match goal with
      | |- context [test_dataset_functions api _ fast_mode ?l] =>
          destruct (test_dataset_functions_ok api (w :: ws) fast_mode l)
            as (ds & tr4 & E4 & _ & _ & _ & N4)
      end.
      rewrite E4. clear E4. unfold bind at 1.
      match goal with
      | |- context [test_resource_functions api _ fast_mode ?l] =>
          destruct (test_resource_functions_ok api (w :: ws) fast_mode l)
            as (rs & tr5 & E5 & _ & _ & _ & N5)
      end.
      rewrite E5. clear E5. unfold bind at 1.
      match goal with
      | |- context [test_integrated_workflow api _ ?l] =>
          destruct (test_integrated_workflow_ok api (w :: ws) l)
            as (wf & tr6 & E6 & _)
      end.
      rewrite E6. clear E6.
      destruct (success_rate_ok org (N3 Hw)) as (ro & Ro).
      destruct (success_rate_ok ds (N4 Hw)) as (rd & Rd).
      destruct (success_rate_ok rs (N5 Hw)) as (rr & Rr).
      unfold bind, ret, print_header, lift. rewrite R, Ro, Rd, Rr.
      eexists _, _. reflexivity.
Qed.

(** ** The footprint of a run *)

Lemma call_count_app a b : call_count (a ++ b) = (call_count a + call_count b)%nat.
Proof. unfold call_count. rewrite filter_app, length_app. reflexivity. Qed.

Lemma fp_ret {A} T (a : A) : footprint T 0 (ret a).
Proof.
  intros log. exists (Ok a), []. rewrite app_nil_r.
  split; [reflexivity|]. split; [constructor|apply Nat.le_refl].
Qed.

Lemma fp_lift {A} T (r : res A) : footprint T 0 (lift r).
Proof.
  intros log. exists r, []. rewrite app_nil_r.
  split; [reflexivity|]. split; [constructor|apply Nat.le_refl].
Qed.

Lemma fp_header T h : footprint T 0 (print_header h).
Proof.
  intros log. exists (Ok tt), [Header h].
  split; [reflexivity|]. split; [|apply Nat.le_refl].
  constructor; [exact I|constructor].
Qed.

Lemma fp_invoke T c : addressed T (Call c) -> footprint T 1 (invoke api c).
Proof.
  intros H log. exists (api log c), [Call c].
  split; [reflexivity|]. split; [|apply Nat.le_refl].
  constructor; [exact H|constructor].
Qed.

Lemma fp_test_function T c :
  addressed T (Call c) -> footprint T 1 (test_function api c).
Proof.
  intros H log. destruct (test_function_runs api c log) as (b & E).
  exists (Ok b), [Call c]. split; [exact E|]. split; [|apply Nat.le_refl].
  constructor; [exact H|constructor].
Qed.

Lemma fp_le {A} T n n' (m : M event A) :
  footprint T n m -> (n <= n')%nat -> footprint T n' m.
Proof.
  intros H Hle log. destruct (H log) as (r & tr & E & F & Hc).
  exists r, tr. split; [exact E|]. split; [exact F|lia].
Qed.

Lemma fp_bind_post {A B} T n1 n2 (Q : A -> Prop) (m : M event A)
    (k : A -> M event B) :
  footprint T n1 m ->
  (forall log a log', m log = (Ok a, log') -> Q a) ->
  (forall a, Q a -> footprint T n2 (k a)) ->
  footprint T (n1 + n2) (bind m k).
Proof.
  intros Hm HQ Hk log. unfold bind.
  destruct (Hm log) as (r & tr & E & F & Hc). rewrite E.
  destruct r as [a|e].
  - destruct (Hk a (HQ log a _ E) (log ++ tr)%list) as (r' & tr' & E' & F' & Hc').
    exists r', (tr ++ tr')%list. rewrite E', app_assoc.
    split; [reflexivity|]. split; [apply Forall_app; auto|].
    rewrite call_count_app. lia.
  - exists (Raise e), tr. split; [reflexivity|]. split; [exact F|lia].
Qed.

Lemma fp_bind {A B} T n1 n2 (m : M event A) (k : A -> M event B) :
  footprint T n1 m -> (forall a, footprint T n2 (k a)) ->
  footprint T (n1 + n2) (bind m k).
Proof.
  intros Hm Hk.
  apply (fp_bind_post T n1 n2 (fun _ => True) m k Hm); auto.
Qed.

Lemma fp_try {A} T n1 n2 (body : M event A) (handler : exn -> M event A) :
  footprint T n1 body -> (forall e, footprint T n2 (handler e)) ->
  footprint T (n1 + n2) (try_except body handler).
Proof.
  intros Hb Hh log. unfold try_except.
  destruct (Hb log) as (r & tr & E & F & Hc). rewrite E.
  destruct r as [a|e].
  - exists (Ok a), tr. split; [reflexivity|]. split; [exact F|lia].
  - destruct (Hh e (log ++ tr)%list) as (r' & tr' & E' & F' & Hc').
    exists r', (tr ++ tr')%list. rewrite E', app_assoc.
    split; [reflexivity|]. split; [apply Forall_app; auto|].
    rewrite call_count_app. lia.
Qed.

Lemma fp_if {A} T n1 n2 (b : bool) (m1 m2 : M event A) :
  footprint T n1 m1 -> footprint T n2 m2 ->
  footprint T (Nat.max n1 n2) (if b then m1 else m2).
Proof.
  intros H1 H2. destruct b.
  - apply (fp_le T n1); [exact H1|apply Nat.le_max_l].
  - apply (fp_le T n2); [exact H2|apply Nat.le_max_r].
Qed.

Lemma fp_option {A X} T n1 n2 (o : option X) (m1 : X -> M event A)
    (m2 : M event A) :
  (forall x, footprint T n1 (m1 x)) -> footprint T n2 m2 ->
  footprint T (Nat.max n1 n2) (match o with Some x => m1 x | None => m2 end).
Proof.
  intros H1 H2. destruct o as [x|].
  - apply (fp_le T n1); [apply H1|apply Nat.le_max_l].
  - apply (fp_le T n2); [exact H2|apply Nat.le_max_r].
Qed.

Lemma fp_for T n body cs :
  (forall country, In country cs -> footprint T n (body country)) ->
  forall acc, footprint T (n * List.length cs) (for_countries body cs acc).
Proof.
  induction cs as [|c cs IH]; intros Hb acc; cbn [for_countries List.length].
  - rewrite Nat.mul_0_r. apply fp_ret.
  - apply (fp_le T (n + n * List.length cs)); [|lia].
    apply fp_bind; [apply Hb; left; reflexivity|].
    intros success. apply IH. intros k Hk. apply Hb. right. exact Hk.
Qed.

Ltac addr :=
  first [ exact I
        | left; assumption
        | right; reflexivity ].

Ltac fp :=
  repeat first
    [ apply fp_ret
    | apply fp_lift
    | apply fp_header
    | apply fp_invoke; cbn [addressed call_country]; addr
    | apply fp_test_function; cbn [addressed call_country]; addr
    | eapply fp_bind; [|intros ?]
    | eapply fp_try; [|intros ?]
    | eapply fp_if
    | eapply fp_option; [intros ?|] ].

Lemma fp_organization_body T country :
  In country T -> footprint T 3 (organization_body api country).
Proof.
  intros Hin. unfold organization_body.
  eapply fp_le; [fp|vm_compute; lia].
Qed.

Lemma fp_dataset_body T country :
  In country T -> footprint T 4 (dataset_body api country).
Proof.
  intros Hin. unfold dataset_body.
  eapply fp_le; [fp|vm_compute; lia].
Qed.

Lemma fp_resource_body T country :
  In country T -> footprint T 4 (resource_body api country).
Proof.
  intros Hin. unfold resource_body.
  eapply fp_le; [fp|vm_compute; lia].
Qed.

Lemma fp_integrated_workflow T countries :
  footprint T 4 (test_integrated_workflow api countries).
Proof.
  unfold test_integrated_workflow.
  eapply fp_le; [fp|vm_compute; lia].
Qed.

Lemma fp_supported_countries T :
  footprint T 2 (test_supported_countries api).
Proof.
  unfold test_supported_countries.
  eapply fp_le; [fp|vm_compute; lia].
Qed.

Lemma fp_group T n header body test_countries :
  (forall country, In country test_countries -> footprint T n (body country)) ->
  footprint T (n * List.length test_countries)
    (bind (print_header header)
          (fun _ => for_countries body test_countries [])).
Proof.
  intros Hb.
  apply (fp_bind T 0 (n * List.length test_countries));
    [apply fp_header|intros _; apply fp_for; exact Hb].
Qed.

Lemma working_length conn T :
  NoDup (map fst conn) -> (forall k, In k (map fst conn) -> In k T) ->
  (List.length (working conn) <= List.length T)%nat.
Proof.
  intros Hn Hk. apply Nat.le_trans with (attempts conn).
  - unfold working, attempts. rewrite length_map. apply filter_length_le.
  - apply attempts_bound; assumption.
Qed.

Lemma working_keys conn k : In k (working conn) -> In k (map fst conn).
Proof.
  unfold working. intros H. apply in_map_iff in H.
  destruct H as (kv & <- & H). apply filter_In in H.
  apply in_map. tauto.
Qed.

Lemma fp_groups T W (fast_mode : bool) :
  (forall k, In k W -> In k T) ->
  footprint T
    (3 * List.length (if fast_mode then firstn 2 W else W)
     + (4 * List.length (if fast_mode then firstn 2 W else W)
        + (4 * List.length (if fast_mode then firstn 1 W else W) + (4 + 0))))
    (bind (test_organization_functions api W fast_mode) (fun organizations =>
     bind (test_dataset_functions api W fast_mode) (fun datasets =>
     bind (test_resource_functions api W fast_mode) (fun resources =>
     bind (test_integrated_workflow api W) (fun workflow =>
     ret (organizations, datasets, resources, workflow)))))).
Proof.
  intros Hsub.
  assert (Hsel : forall n k, In k (if fast_mode then firstn n W else W) -> In k T).
  { intros n k Hk. apply Hsub. destruct fast_mode; [|exact Hk].
    exact (firstn_incl n W k Hk). }
  apply fp_bind.
  { apply fp_group. intros c Hc. apply fp_organization_body. exact (Hsel _ c Hc). }
  intros organizations. apply fp_bind.
  { apply fp_group. intros c Hc. apply fp_dataset_body. exact (Hsel _ c Hc). }
  intros datasets. apply fp_bind.
  { apply fp_group. intros c Hc. apply fp_resource_body. exact (Hsel _ c Hc). }
  intros resources. apply fp_bind; [apply fp_integrated_workflow|].
  intros workflow. apply fp_ret.
Qed.

(** X15: the footprint of a run.  Whatever the wrapper answers, a run of
    [run_all_tests] ends, and every call it has made is the one for the
    supported countries or is addressed to a portal it was to test or to
    ["us"], the portal of the integrated workflow.  It makes at most 27
    calls in fast mode and otherwise at most 6 and 12 for each portal. *)
Theorem run_footprint countries fast_mode log :
  exists outcome trace,
    run_all_tests api countries fast_mode log = (outcome, (log ++ trace)%list)
    /\ Forall (addressed (targets countries fast_mode)) trace
    /\ (call_count trace <= call_budget countries fast_mode)%nat.
Proof.
  set (T := targets countries fast_mode).
  assert (H : footprint T (call_budget countries fast_mode)
                (run_all_tests api countries fast_mode)); [|exact (H log)].
  unfold run_all_tests.
  apply (fp_le T (0 + (2 + (1 * List.length T
                            + ((if fast_mode then 22 else 11 * List.length T + 4)
                               + 0))))).
  2:{ unfold call_budget. subst T. destruct fast_mode; simpl; lia. }
  apply fp_bind; [apply fp_header|]. intros _.
  apply fp_bind; [apply fp_supported_countries|]. intros supported.
  apply (fp_bind_post T _ _
           (fun conn => NoDup (map fst conn)
                        /\ (forall k, In k (map fst conn) -> In k T))).
  - apply (fp_group T 1 "Testing Portal Connections"
             (fun country => test_function api (test_portal_connection country)) T).
    intros country Hin. apply fp_test_function. left. exact Hin.
  - intros l conn l' E.
    destruct (test_portal_connections_ok api
                (match countries with Some c => c | None => ALL_COUNTRIES end)
                fast_mode l) as (conn' & tr & E' & _ & Hn & Hk).
    rewrite E in E'. injection E' as <- _.
    split; [exact Hn|]. intros k Hin. exact (proj1 (Hk k) Hin).
  - intros conn [Hn Hk].
    assert (HW : forall k, In k (working conn) -> In k T)
      by (intros k Hin; apply Hk, working_keys; exact Hin).
    pose proof (working_length conn T Hn Hk) as HL.
    destruct (working conn) as [|w ws] eqn:W.
    + apply (fp_le T (0 + 0)); [|destruct fast_mode; lia].
      apply fp_bind; [apply fp_ret|].
      intros [[[organizations datasets] resources] workflow].
      eapply fp_le; [fp|vm_compute; lia].
    + apply fp_bind.
      * eapply fp_le; [apply (fp_groups T (w :: ws) fast_mode HW)|].
        destruct fast_mode.
        -- pose proof (firstn_le_length 2 (w :: ws)).
           pose proof (firstn_le_length 1 (w :: ws)). lia.
        -- lia.
      * intros [[[organizations datasets] resources] workflow].
        eapply fp_le; [fp|vm_compute; lia].
Qed.

(** ** The outcomes a group stores *)

Lemma results_set_new k v d :
  ~ In k (map fst d) -> map fst (results_set k v d) = (map fst d ++ [k])%list.
Proof.
  induction d as [|[k0 v0] d IH]; simpl; intros H; [reflexivity|].
  destruct (String.eqb k k0) eqn:E.
  - apply String.eqb_eq in E. subst k0. destruct H. left. reflexivity.
  - simpl. rewrite IH by tauto. reflexivity.
Qed.

Lemma for_countries_keys (body : string -> C bool) cs :
  forall acc log r log',
    NoDup (map fst acc ++ cs) ->
    for_countries body cs acc log = (Ok r, log') ->
    map fst r = (map fst acc ++ cs)%list.
Proof.
  induction cs as [|c cs IH]; intros acc log r log' Hn E; simpl in E.
  - unfold ret in E. injection E as <- _. rewrite app_nil_r. reflexivity.
  - unfold bind in E. destruct (body c log) as [[b|e] l1]; [|discriminate].
    assert (Hc : ~ In c (map fst acc)).
    { intros Hin. apply (NoDup_remove_2 _ _ _ Hn). apply in_or_app. left. exact Hin. }
    rewrite (IH (results_set c b acc) l1 r log').
    + rewrite (results_set_new c b acc Hc), <- app_assoc. reflexivity.
    + rewrite (results_set_new c b acc Hc), <- app_assoc. exact Hn.
    + exact E.
Qed.

Lemma group_keys header (body : string -> C bool) cs log r log' :
  NoDup cs ->
  bind (print_header header) (fun _ => for_countries body cs []) log = (Ok r, log') ->
  map fst r = cs.
Proof.
  intros Hn E. unfold bind, print_header in E.
  exact (for_countries_keys body cs [] _ r log' Hn E).
Qed.

Lemma NoDup_working conn : NoDup (map fst conn) -> NoDup (working conn).
Proof.
  unfold working. induction conn as [|[k v] conn IH]; simpl; intros H;
    [constructor|].
  inversion H as [|? ? Hk Hd]; subst.
  destruct v; simpl; [|exact (IH Hd)].
  constructor; [|exact (IH Hd)].
  intros Hin. apply Hk. apply in_map_iff in Hin.
  destruct Hin as (kv & <- & Hin). apply filter_In in Hin.
  apply in_map. tauto.
Qed.

Lemma NoDup_firstn_of {X} n (l : list X) : NoDup l -> NoDup (firstn n l).
Proof.
  revert l. induction n as [|n IH]; intros [|x l] H; simpl; try constructor.
  - inversion H as [|? ? Hx Hl]; subst. intros Hin. apply Hx.
    exact (firstn_incl n l x Hin).
  - inversion H; subst. apply IH. assumption.
Qed.

(** X16: the outcomes of the three groups.  In a run that ends with a
    report, each group holds one outcome for each portal it tested, in the
    order in which the connections were tested: the working portals, or in
    fast mode the first two of them for organizations and datasets and the
    first one for resources. *)
Theorem group_outcomes countries fast_mode log :
  exists outcome log',
    run_all_tests api countries fast_mode log = (outcome, log')
    /\ match outcome with
       | Ok rep =>
           let W := working (connections rep) in
           NoDup W
           /\ map fst (organizations rep) = (if fast_mode then firstn 2 W else W)
           /\ map fst (datasets rep) = (if fast_mode then firstn 2 W else W)
           /\ map fst (resources rep) = (if fast_mode then firstn 1 W else W)
       | Raise _ => True
       end.
Proof.
  unfold run_all_tests.
  unfold bind at 1. unfold print_header at 1. unfold bind at 1.
  destruct (test_supported_countries api
              (log ++ [Header "Universal CKAN API Wrapper - Test Suite"])%list)
    as [[supported|e] l1]; [|eexists _, _; split; [reflexivity|exact I]].
  unfold bind at 1.
  destruct (test_portal_connections_ok api
              (match countries with Some l => l | None => ALL_COUNTRIES end)
              fast_mode l1) as (conn & tr2 & E2 & _ & Hnd & _).
  rewrite E2. clear E2.
  pose proof (NoDup_working conn Hnd) as HW.
  unfold bind at 1.
  destruct (working conn) as [|w ws] eqn:W.
  - unfold ret at 1. unfold bind at 1. unfold print_header at 1.
    unfold bind at 1. unfold lift at 1.
    destruct (success_rate conn) as [rate|e];
      [|eexists _, _; split; [reflexivity|exact I]].
    unfold bind, ret, print_header. eexists _, _. split; [reflexivity|].
    cbn [connections organizations datasets resources]. rewrite W.
    split; [constructor|]. destruct fast_mode; repeat split; reflexivity.
  - assert (Hsel : forall n, NoDup (if fast_mode then firstn n (w :: ws) else w :: ws)).
    { intros n. destruct fast_mode; [apply NoDup_firstn_of|]; exact HW. }
    unfold bind at 1. unfold bind at 1.
    match goal with
    | |- context [test_organization_functions api _ fast_mode ?l] =>
        destruct (test_organization_functions api (w :: ws) fast_mode l)
          as [[org|e] l3] eqn:E3;
          [|eexists _, _; split; [reflexivity|exact I]]
    end.
    apply group_keys in E3; [|exact (Hsel 2%nat)].
    unfold bind at 1.
    match goal with
    | |- context [test_dataset_functions api _ fast_mode ?l] =>
        destruct (test_dataset_functions api (w :: ws) fast_mode l)
          as [[ds|e] l4] eqn:E4;
          [|eexists _, _; split; [reflexivity|exact I]]
    end.
    apply group_keys in E4; [|exact (Hsel 2%nat)].
    unfold bind at 1.
    match goal with
    | |- context [test_resource_functions api _ fast_mode ?l] =>
        destruct (test_resource_functions api (w :: ws) fast_mode l)
          as [[rs|e] l5] eqn:E5;
          [|eexists _, _; split; [reflexivity|exact I]]
    end.
    apply group_keys in E5; [|exact (Hsel 1%nat)].
    unfold bind at 1.
    match goal with
    | |- context [test_integrated_workflow api _ ?l] =>
        destruct (test_integrated_workflow api (w :: ws) l) as [[wf|e] l6];
          [|eexists _, _; split; [reflexivity|exact I]]
    end.
    unfold bind, ret, print_header, lift.
    destruct (success_rate conn) as [rate|e];
      [|eexists _, _; split; [reflexivity|exact I]].
    destruct (success_rate org) as [ro|e];
      [|eexists _, _; split; [reflexivity|exact I]].
    destruct (success_rate ds) as [rd|e];
      [|eexists _, _; split; [reflexivity|exact I]].
    destruct (success_rate rs) as [rr|e];
      [|eexists _, _; split; [reflexivity|exact I]].
    eexists _, _. split; [reflexivity|].
    cbn [connections organizations datasets resources]. rewrite W.
    split; [exact HW|]. split; [exact E3|]. split; [exact E4|exact E5].
Qed.

Lemma print_countries_ok items :
  Forall country_entry items -> print_countries items = Ok tt.
Proof.
  induction 1 as [|v items (kv & -> & Hc & Hn) _ IH]; [reflexivity|].
  cbn [print_countries py_getitem]. unfold dict_has in Hc, Hn.
  destruct (dict_get "code" kv); [|discriminate].
  destruct (dict_get "name" kv); [|discriminate].
  exact IH.
Qed.

(** X17: [test_supported_countries] tests the wrapper's answer with
    [test_function] and, when the test fails, returns false after that one
    call; when the test passes, it calls the wrapper a second time outside
    any [try]: an exception of that second call leaves the function, and a
    second answer that lists printable countries makes it return true. *)
Theorem supported_countries_second_call log :
  let l0 := (log ++ [Header "Testing Supported Countries Function"])%list in
  let l1 := (l0 ++ [Call get_supported_countries])%list in
  let l2 := (l1 ++ [Call get_supported_countries])%list in
  exists success,
    test_function api get_supported_countries l0 = (Ok success, l1)
    /\ (success = false -> test_supported_countries api log = (Ok false, l1))
    /\ (success = true ->
        (forall e, api l1 get_supported_countries = Raise e ->
                   test_supported_countries api log = (Raise e, l2))
        /\ (forall d items,
              api l1 get_supported_countries = Ok (PDict d) ->
              dict_get "data" d = Some (PList items) ->
              Forall country_entry items ->
              test_supported_countries api log = (Ok true, l2))).
Proof.
  cbv zeta.
  destruct (test_function_runs api get_supported_countries
              (log ++ [Header "Testing Supported Countries Function"])%list)
    as (b & E).
  exists b. split; [exact E|]. split.
  - intros ->.
    unfold test_supported_countries. unfold bind at 1. unfold print_header at 1.
    unfold bind at 1. rewrite E. reflexivity.
  - intros ->. split.
    + intros e A.
      unfold test_supported_countries. unfold bind at 1. unfold print_header at 1.
      unfold bind at 1. rewrite E.
      unfold bind, invoke, lift, ret. rewrite A. reflexivity.
    + intros d items A Hd Hitems.
      unfold test_supported_countries. unfold bind at 1. unfold print_header at 1.
      unfold bind at 1. rewrite E.
      unfold bind, invoke, lift, ret. rewrite A. cbn [py_getitem]. rewrite Hd.
      cbn [py_len py_iter]. rewrite (print_countries_ok items Hitems).
      reflexivity.
Qed.

End Harness.
(** X13 at [--country it --fast]. *)
Lemma fast_mode_ignores_countries_witness :
  (forall countries countries',
     run_all_tests sample_api countries true []
     = run_all_tests sample_api countries' true [])
  /\ (main sample_api ["test_universal_ckan_api.py"; "--country"; "it"; "--fast"] []
      = (1%Z, [])
      \/ main sample_api ["test_universal_ckan_api.py"; "--country"; "it"; "--fast"] []
         = main sample_api ["--fast"] []).
Proof.
  apply (fast_mode_ignores_countries sample_api
           ["test_universal_ckan_api.py"; "--country"; "it"; "--fast"] []).
  reflexivity.
Defined.

End CkanExtras.
